(** * Verification of the quant scanner core of [chart_scanner.py]

    The development embeds [PropGuardConfig], [ScannerWorker.__init__],
    [ScannerWorker.set_config], the per-cycle body of [ScannerWorker.run],
    [ScannerWorker.analyze_symbol] and [ScannerWorker.calculate_lot].

    Numbers.  The source computes with binary64 floats (Python [float] and
    [numpy.float64]).  They are embedded as exact rationals [Q]: rounding
    error, infinities and NaN are not represented.  A [numpy] division by
    zero does not raise in the source (it yields inf or nan); here [Qdiv]
    by zero yields [0], so every statement about the value of a score
    carries the hypothesis that the divisors ([atr], [close]) are not zero.
    A Python [float] division by zero raises [ZeroDivisionError]; that is
    modelled as [Raise]. *)

From Stdlib Require Import QArith Qabs Qround Lqa ZArith Lia.
From Stdlib Require Import List String Bool Sorted Permutation.
Import ListNotations.

Open Scope Q_scope.

(** ** Python built-ins used by the source *)

Module Py.

(** [x < y] on floats. *)
Definition ltb (x y : Q) : bool := negb (Qle_bool y x).

(** [min(a, b)]: the second argument is returned only when it is
    strictly smaller. *)
Definition min (a b : Q) : Q := if ltb b a then b else a.

(** [max(a, b)]: the second argument is returned only when it is
    strictly larger. *)
Definition max (a b : Q) : Q := if ltb a b then b else a.

(** [round(x)] with no digits: nearest integer, ties to the even one. *)
Definition round (x : Q) : Z :=
  let f := Qfloor x in
  match Qcompare (x - inject_Z f) (1 # 2) with
  | Lt => f
  | Gt => (f + 1)%Z
  | Eq => if Z.even f then f else (f + 1)%Z
  end.

(** [round(x, 1)]: one decimal, ties to even. *)
Definition round1 (x : Q) : Q := inject_Z (round (x * 10)) / 10.

Inductive exn : Set :=
| AttributeError | ZeroDivisionError | IndexError | LibraryError.

(** Outcome of a block that may raise. *)
Inductive result (A : Type) : Type :=
| Ok (a : A)
| Raise (e : exn).
Arguments Ok {A} a.
Arguments Raise {A} e.

Definition bind {A B} (m : result A) (k : A -> result B) : result B :=
  match m with
  | Ok a => k a
  | Raise e => Raise e
  end.

(** Attribute access on a value that may be [None]. *)
Definition attr_of {A} (o : option A) : result A :=
  match o with
  | Some a => Ok a
  | None => Raise AttributeError
  end.

(** [df.iloc[-1]] *)
Definition iloc_last {A} (rows : list A) : result A :=
  match rows with
  | [] => Raise IndexError
  | r :: rest => Ok (List.last rest r)
  end.

(** Python [float] division. *)
Definition truediv (x y : Q) : result Q :=
  if Qeq_bool y 0 then Raise ZeroDivisionError else Ok (x / y).

End Py.

Import Py.

Notation "x <- m ;; k" := (Py.bind m (fun x => k))
  (at level 61, m at next level, right associativity).

(** ** 1. Configuration *)

Module PropGuardConfig.
Definition ATR_PERIOD : nat := 14.
Definition ATR_MULTIPLIER : Q := 1.5.
Definition LOOKBACK : nat := 20.
Definition EMA_PERIOD : nat := 200.
Definition RSI_PERIOD : nat := 14.
Definition ADX_PERIOD : nat := 14.
End PropGuardConfig.

(** ** The data provider ([MetaTrader5]) as seen during one cycle *)

Inductive Timeframe : Set := TIMEFRAME_M1 | TIMEFRAME_H1 | TIMEFRAME_D1.

Record Bar : Set := mkBar {
  bar_open : Q; bar_high : Q; bar_low : Q; bar_close : Q }.

Record Tick : Set := mkTick { bid : Q; ask : Q }.

Record SymbolInfo : Set := mkSymbolInfo {
  point : Q;
  trade_tick_value : Q;
  volume_min : Q;
  volume_max : Q;
  volume_step : Q }.

Record AccountInfo : Set := mkAccountInfo { balance : Q; equity : Q }.

(** Every call returns [None] when the terminal has no answer. *)
Record MT5 : Type := mkMT5 {
  copy_rates_from_pos : string -> Timeframe -> nat -> nat -> option (list Bar);
  symbol_info_tick : string -> option Tick;
  symbol_info : string -> option SymbolInfo;
  account_info : option AccountInfo }.

(** The last row of the data frame after the [pandas_ta] columns have been
    added: [ema], [atr], [rsi], [adx], [DCU_20_20], [DCL_20_20]. *)
Record Indicators : Set := mkIndicators {
  ema : Q; atr : Q; rsi : Q; adx : Q; dcu : Q; dcl : Q }.

(** ** 2. The quant engine *)

Inductive Bias : Set := BULLISH | BEARISH | NEUTRAL.

(** The dictionary returned by [analyze_symbol]. *)
Record Opportunity : Set := mkOpportunity {
  opp_symbol : string;
  opp_score : Q;
  opp_bias : Bias;
  opp_price : Q;
  opp_sl : Q;
  opp_tp : Q;
  opp_lots : Q;
  opp_adx : Q }.

Record ScannerWorker : Type := mkScannerWorker {
  is_running : bool;
  active_symbols : list string;
  risk_per_trade : Q;
  rr_ratio : Q;
  timeframe : Timeframe;
  initial_equity : Q }.

(** [ScannerWorker.__init__] *)
Definition ScannerWorker_init : ScannerWorker :=
  {| is_running := false;
     active_symbols := [];
     risk_per_trade := 0.5;
     rr_ratio := 1.5;
     timeframe := TIMEFRAME_H1;
     initial_equity := 0 |}.

(** [ScannerWorker.set_config] (the log emission is left out). *)
Definition set_config (self : ScannerWorker)
    (symbols : list string) (risk rr : Q) : ScannerWorker :=
  {| is_running := is_running self;
     active_symbols := symbols;
     risk_per_trade := risk;
     rr_ratio := rr;
     timeframe := timeframe self;
     initial_equity := initial_equity self |}.

(** *** Scoring components of [analyze_symbol] *)

(** Step 3, "Determine Bias". *)
Definition determine_bias (close ema_v : Q) : Bias :=
  if Py.ltb ema_v close then BULLISH
  else if Py.ltb close ema_v then BEARISH
  else NEUTRAL.

(** A. Trend strength. *)
Definition trend_str (close ema_v atr_v : Q) : Q :=
  let ema_dist := Qabs (close - ema_v) in
  Py.min (ema_dist / (atr_v * 2.0)) 1.0.

Definition adx_norm (adx_v : Q) : Q :=
  Py.min (Py.max ((adx_v - 20) / 25) 0) 1.

Definition score_trend (close : Q) (curr : Indicators) : Q :=
  (0.6 * trend_str close (ema curr) (atr curr)) + (0.4 * adx_norm (adx curr)).

(** B. Momentum alignment. *)
Definition score_mom (b : Bias) (curr : Indicators) : Q :=
  match b with
  | BULLISH => Py.max (Py.min ((rsi curr - 50) / 25) 1) 0
  | BEARISH => Py.max (Py.min ((50 - rsi curr) / 25) 1) 0
  | NEUTRAL => 0.0
  end.

(** C. Volatility quality. *)
Definition score_vol (close : Q) (curr : Indicators) : Q :=
  let atr_pct := atr curr / close in
  Py.min (Py.max ((atr_pct - 0.0005) / 0.002) 0) 1.

(** D. Structure proximity. *)
Definition dist_to_break (b : Bias) (curr : Indicators) (tick : Tick) : Q :=
  match b with
  | BULLISH => Qabs (dcu curr - ask tick)
  | _ => Qabs (bid tick - dcl curr)
  end.

Definition score_struct (b : Bias) (curr : Indicators) (tick : Tick) : Q :=
  1.0 - Py.min (dist_to_break b curr tick / (atr curr * 1.5)) 1.0.

(** E. Liquidity quality, once [spread_points] has been computed. *)
Definition score_liq (spread_points : Q) (curr : Indicators)
    (sym_info : SymbolInfo) : Q :=
  let atr_points := atr curr / point sym_info in
  Py.max (1.0 - (spread_points / (atr_points * 0.2))) 0.0.

(** The weighted sum before rounding. *)
Definition weighted_score (t m v s l : Q) : Q :=
  100 * ((0.30 * t) + (0.20 * m) + (0.15 * v) + (0.25 * s) + (0.10 * l)).

Definition final_score (t m v s l : Q) : Q :=
  Py.round1 (weighted_score t m v s l).

(** *** Trade setup *)

Definition setup_entry (b : Bias) (tick : Tick) : Q :=
  match b with
  | BULLISH => ask tick
  | _ => bid tick
  end.

Definition setup_sl (b : Bias) (tick : Tick) (curr : Indicators) : Q :=
  let entry := setup_entry b tick in
  match b with
  | BULLISH => entry - (atr curr * PropGuardConfig.ATR_MULTIPLIER)
  | _ => entry + (atr curr * PropGuardConfig.ATR_MULTIPLIER)
  end.

Definition setup_tp (self : ScannerWorker) (b : Bias) (tick : Tick)
    (curr : Indicators) : Q :=
  let entry := setup_entry b tick in
  let sl := setup_sl b tick curr in
  match b with
  | BULLISH => entry + ((entry - sl) * rr_ratio self)
  | _ => entry - ((sl - entry) * rr_ratio self)
  end.

(** *** [ScannerWorker.calculate_lot] *)

(** The final line: cap at [volume_max], otherwise floor at [volume_min]. *)
Definition clamp_lot (lot : Q) (sym_info : SymbolInfo) : Q :=
  if Qle_bool lot (volume_max sym_info)
  then Py.max lot (volume_min sym_info)
  else volume_max sym_info.

(** [round(raw_lot / step) * step].  With [step = 0] the quotient is not
    a finite number and [round] raises. *)
Definition quantize (raw_lot step : Q) : result Q :=
  q <- Py.truediv raw_lot step ;;
  Ok (inject_Z (Py.round q) * step).

Definition calculate_lot (self : ScannerWorker) (mt5 : MT5)
    (symbol : string) (sl_points : Q) : result Q :=
  acct <- Py.attr_of (account_info mt5) ;;
  let risk_money := balance acct * (risk_per_trade self / 100.0) in
  match symbol_info mt5 symbol with
  | None => Ok 0.0
  | Some sym_info =>
      let tick_value := trade_tick_value sym_info in
      if Qeq_bool tick_value 0 || Qeq_bool sl_points 0 then Ok 0.0
      else
        let raw_lot := risk_money / (sl_points * tick_value) in
        lot <- quantize raw_lot (volume_step sym_info) ;;
        Ok (clamp_lot lot sym_info)
  end.

(** *** [ScannerWorker.analyze_symbol] *)

Definition bars : nat := 250.

Section Engine.

(** The [pandas_ta] indicator pipeline (lines 101-113): from the fetched
    bars to the last row of the frame, or an exception. *)
Variable ta : list Bar -> result Indicators.

Variable self : ScannerWorker.
Variable mt5 : MT5.

(** The body of the [try] block. *)
Definition analyze_symbol_try (symbol : string)
    : result (option Opportunity) :=
  match copy_rates_from_pos mt5 symbol (timeframe self) 0 bars with
  | None => Ok None
  | Some rates =>
      if (List.length rates <? bars)%nat then Ok None
      else
        ind <- ta rates ;;
        curr <- Py.iloc_last rates ;;
        let close := bar_close curr in
        match symbol_info_tick mt5 symbol with
        | None => Ok None
        | Some tick =>
            let bias := determine_bias close (ema ind) in
            let s_trend := score_trend close ind in
            let s_mom := score_mom bias ind in
            let s_vol := score_vol close ind in
            let s_struct := score_struct bias ind tick in
            sym_info <- Py.attr_of (symbol_info mt5 symbol) ;;
            spread_points <-
              Py.truediv (ask tick - bid tick) (point sym_info) ;;
            let s_liq := score_liq spread_points ind sym_info in
            let score := final_score s_trend s_mom s_vol s_struct s_liq in
            let entry := setup_entry bias tick in
            let sl := setup_sl bias tick ind in
            let tp := setup_tp self bias tick ind in
            let sl_points := Qabs (entry - sl) / point sym_info in
            lot_size <- calculate_lot self mt5 symbol sl_points ;;
            Ok (Some {| opp_symbol := symbol;
                        opp_score := score;
                        opp_bias := bias;
                        opp_price := entry;
                        opp_sl := sl;
                        opp_tp := tp;
                        opp_lots := lot_size;
                        opp_adx := adx ind |})
        end
  end.

(** [except Exception: return None] *)
Definition analyze_symbol (symbol : string) : option Opportunity :=
  match analyze_symbol_try symbol with
  | Ok r => r
  | Raise _ => None
  end.

(** *** One cycle of [ScannerWorker.run] *)

(** The [for symbol in self.active_symbols] loop. *)
Fixpoint scan_symbols (symbols : list string) : list Opportunity :=
  match symbols with
  | [] => []
  | symbol :: rest =>
      match analyze_symbol symbol with
      | Some data => data :: scan_symbols rest
      | None => scan_symbols rest
      end
  end.

End Engine.

(** ** 3. The cockpit: what reaches the engine *)

Module ScannerGUI.

(** [create_top_bar]: the values the two spin boxes start with. *)
Definition spin_risk_value : Q := 0.5.
Definition spin_rr_value : Q := 2.0.

(** [toggle_scan] on a worker that is not running, with a non-empty
    selection and untouched spin boxes: the call to [set_config]. *)
Definition toggle_scan (worker : ScannerWorker)
    (selected_symbols : list string) : ScannerWorker :=
  set_config worker selected_symbols spin_risk_value spin_rr_value.

End ScannerGUI.

(** Concrete inputs: the end-to-end scenario of the design notes (a bullish
    EURUSD), a symbol whose close sits on the trend filter, a symbol with a
    zero tick value, and symbols the terminal does not know. *)
Module Scenario.

Local Open Scope string_scope.

Definition bar_at (c : Q) : Bar :=
  {| bar_open := c; bar_high := c; bar_low := c; bar_close := c |}.

Definition ta (rates : list Bar) : result Indicators :=
  match rates with
  | [] => Raise LibraryError
  | b :: _ =>
      Ok {| ema := 1.1000; atr := 0.0010; rsi := 70; adx := 35;
            dcu := bar_close b + 0.0010; dcl := bar_close b - 0.0050 |}
  end.

Definition info (tv : Q) : SymbolInfo :=
  {| point := 0.0001; trade_tick_value := tv;
     volume_min := 0.01; volume_max := 100; volume_step := 0.01 |}.

Definition mt5 : MT5 :=
  {| copy_rates_from_pos := fun symbol _ _ count =>
       if String.eqb symbol "EURUSD" then Some (List.repeat (bar_at 1.1050) count)
       else if String.eqb symbol "GBPUSD" then Some (List.repeat (bar_at 1.1000) count)
       else if String.eqb symbol "XAUUSD" then Some (List.repeat (bar_at 1.0950) count)
       else if String.eqb symbol "ETHUSD" then Some (List.repeat (bar_at 1.1050) count)
       else if String.eqb symbol "US30" then Some (List.repeat (bar_at 1.1050) 10)
       else None;
     symbol_info_tick := fun symbol =>
       if String.eqb symbol "EURUSD" then Some {| bid := 1.1048; ask := 1.1052 |}
       else if String.eqb symbol "ETHUSD" then Some {| bid := 1.1048; ask := 1.1052 |}
       else if String.eqb symbol "GBPUSD" then Some {| bid := 1.0999; ask := 1.1001 |}
       else if String.eqb symbol "XAUUSD" then Some {| bid := 1.0949; ask := 1.0951 |}
       else None;
     symbol_info := fun symbol =>
       if String.eqb symbol "EURUSD" then Some (info 1.0)
       else if String.eqb symbol "GBPUSD" then Some (info 1.0)
       else if String.eqb symbol "XAUUSD" then Some (info 0)
       else None;
     account_info := Some {| balance := 10000; equity := 10000 |} |}.

Definition self : ScannerWorker :=
  set_config ScannerWorker_init
    ["US30"; "GBPUSD"; "ETHUSD"; "XAUUSD"; "EURUSD"; "BTCUSD"] 0.5 2.0.

Definition ind_at (c : Q) : Indicators :=
  {| ema := 1.1000; atr := 0.0010; rsi := 70; adx := 35;
     dcu := c + 0.0010; dcl := c - 0.0050 |}.

Definition opp_EURUSD : Opportunity :=
  {| opp_symbol := "EURUSD"; opp_score := 55.9; opp_bias := BULLISH;
     opp_price := 1.1052; opp_sl := 1.1037; opp_tp := 1.1082;
     opp_lots := 3.33; opp_adx := 35 |}.

Definition opp_GBPUSD : Opportunity :=
  {| opp_symbol := "GBPUSD"; opp_score := 10.3; opp_bias := NEUTRAL;
     opp_price := 1.0999; opp_sl := 1.1014; opp_tp := 1.0969;
     opp_lots := 3.33; opp_adx := 35 |}.

(** Field-wise equality of opportunities up to the value of the
    fractions. *)
Definition opp_eqb (a b : Opportunity) : bool :=
  String.eqb (opp_symbol a) (opp_symbol b)
  && Qeq_bool (opp_score a) (opp_score b)
  && match opp_bias a, opp_bias b with
     | BULLISH, BULLISH | BEARISH, BEARISH | NEUTRAL, NEUTRAL => true
     | _, _ => false
     end
  && Qeq_bool (opp_price a) (opp_price b)
  && Qeq_bool (opp_sl a) (opp_sl b)
  && Qeq_bool (opp_tp a) (opp_tp b)
  && Qeq_bool (opp_lots a) (opp_lots b)
  && Qeq_bool (opp_adx a) (opp_adx b).

(** The same terminal with the metadata of ETHUSD available. *)
Definition mt5_healthy : MT5 :=
  {| copy_rates_from_pos := copy_rates_from_pos mt5;
     symbol_info_tick := symbol_info_tick mt5;
     symbol_info := fun symbol =>
       if String.eqb symbol "ETHUSD" then Some (info 1.0)
       else symbol_info mt5 symbol;
     account_info := account_info mt5 |}.

End Scenario.

(** [list.sort(key=lambda x: x['score'], reverse=True)].  The built-in sort
    is stable, also with [reverse=True]; on totally ordered keys its result
    is the one of this insertion sort. *)
Fixpoint insert_desc (x : Opportunity) (l : list Opportunity)
    : list Opportunity :=
  match l with
  | [] => [x]
  | y :: ys =>
      if Py.ltb (opp_score x) (opp_score y)
      then y :: insert_desc x ys
      else x :: y :: ys
  end.

Fixpoint sort_by_score (l : list Opportunity) : list Opportunity :=
  match l with
  | [] => []
  | x :: xs => insert_desc x (sort_by_score xs)
  end.

(** The list passed to [scanner_signal.emit]. *)
Definition run_cycle (ta : list Bar -> result Indicators)
    (self : ScannerWorker) (mt5 : MT5) : list Opportunity :=
  sort_by_score (scan_symbols ta self mt5 (active_symbols self)).

(** ** Vocabulary of the statements *)

(** The inputs of one evaluation are all there: 250 bars, the indicator
    row, the quote and the metadata, with a non-zero point size. *)
Record Evaluated (ta : list Bar -> result Indicators) (self : ScannerWorker)
    (mt5 : MT5) (symbol : string) (rates : list Bar) (ind : Indicators)
    (curr : Bar) (tick : Tick) (sym_info : SymbolInfo) : Prop := {
  ev_rates :
    copy_rates_from_pos mt5 symbol (timeframe self) 0 bars = Some rates;
  ev_length : (bars <= List.length rates)%nat;
  ev_ta : ta rates = Ok ind;
  ev_curr : Py.iloc_last rates = Ok curr;
  ev_tick : symbol_info_tick mt5 symbol = Some tick;
  ev_info : symbol_info mt5 symbol = Some sym_info;
  ev_point : ~ point sym_info == 0 }.

(** The stop distance handed to [calculate_lot]. *)
Definition sl_points_of (b : Bias) (tick : Tick) (ind : Indicators)
    (sym_info : SymbolInfo) : Q :=
  Qabs (setup_entry b tick - setup_sl b tick ind) / point sym_info.

(** The score of an evaluation, from its inputs. *)
Definition score_of (curr : Bar) (ind : Indicators) (tick : Tick)
    (sym_info : SymbolInfo) : Q :=
  let b := determine_bias (bar_close curr) (ema ind) in
  final_score (score_trend (bar_close curr) ind) (score_mom b ind)
    (score_vol (bar_close curr) ind) (score_struct b ind tick)
    (score_liq ((ask tick - bid tick) / point sym_info) ind sym_info).

(** The raw lot of [calculate_lot] and its quantization, from the account
    and the metadata. *)
Definition raw_lot_of (self : ScannerWorker) (acct : AccountInfo)
    (sym_info : SymbolInfo) (sl_points : Q) : Q :=
  balance acct * (risk_per_trade self / 100.0)
    / (sl_points * trade_tick_value sym_info).

Definition quantized_lot_of (self : ScannerWorker) (acct : AccountInfo)
    (sym_info : SymbolInfo) (sl_points : Q) : Q :=
  inject_Z (Py.round (raw_lot_of self acct sym_info sl_points
                      / volume_step sym_info))
    * volume_step sym_info.

(** [a] may stand before [b] in the published list. *)
Definition ranks_before (a b : Opportunity) : Prop := opp_score b <= opp_score a.

(** The opportunities of a list whose score has the value [v]. *)
Definition with_score (v : Q) (l : list Opportunity) : list Opportunity :=
  filter (fun o => Qeq_bool (opp_score o) v) l.

(** Two states of the provider that answer alike for every symbol other
    than [symbol], and for the account. *)
Definition agree_except (symbol : string) (a b : MT5) : Prop :=
  account_info a = account_info b /\
  forall s, s <> symbol ->
    (forall tf pos count,
        copy_rates_from_pos a s tf pos count
          = copy_rates_from_pos b s tf pos count) /\
    symbol_info_tick a s = symbol_info_tick b s /\
    symbol_info a s = symbol_info b s.

Definition not_of (symbol : string) (o : Opportunity) : bool :=
  negb (String.eqb (opp_symbol o) symbol).

(** ** The rest of [ScannerWorker.run] *)

(** The dictionary passed to [stats_signal.emit]. *)
Record Stats : Set := mkStats {
  stats_balance : Q;
  stats_equity : Q;
  stats_daily_pl : Q }.

(** [run] up to the loop, [initialize] being the answer of
    [mt5.initialize()]: [Ok None] when the terminal cannot be initialised
    (the method logs and returns), otherwise the worker that enters the
    loop.  [mt5.account_info().equity] is outside any [try]. *)
Definition run_enter (initialize : bool) (self : ScannerWorker) (mt5 : MT5)
    : result (option ScannerWorker) :=
  if negb initialize then Ok None
  else
    acct <- Py.attr_of (account_info mt5) ;;
    Ok (Some {| is_running := true;
                active_symbols := active_symbols self;
                risk_per_trade := risk_per_trade self;
                rr_ratio := rr_ratio self;
                timeframe := timeframe self;
                initial_equity := equity acct |}).

(** The head of the loop body: the statistics, emitted only [if acct]. *)
Definition cycle_stats (self : ScannerWorker) (mt5 : MT5) : option Stats :=
  match account_info mt5 with
  | Some acct =>
      Some {| stats_balance := balance acct;
              stats_equity := equity acct;
              stats_daily_pl := equity acct - initial_equity self |}
  | None => None
  end.

(** ** [ScannerGUI.update_table] and [ScannerGUI.create_main_area] *)

Module ScannerTable.

Inductive Arrow : Set := NoArrow | ArrowUp | ArrowDown.
Inductive ScoreColor : Set := BrightGreen | Olive | DarkRed.
Inductive SignalText : Set := TRADE_NOW | WATCH | WAIT.

(** [self.previous_scores], a dictionary from symbol to score. *)
Definition previous_scores : Type := string -> option Q.

(** [{}] *)
Definition no_scores : previous_scores := fun _ => None.

(** [d.get(sym, default)] *)
Definition dict_get (d : previous_scores) (sym : string) (default : Q) : Q :=
  match d sym with
  | Some v => v
  | None => default
  end.

(** [d[sym] = v] *)
Definition dict_set (d : previous_scores) (sym : string) (v : Q)
    : previous_scores :=
  fun k => if String.eqb k sym then Some v else d k.

Definition arrow_of (score prev_score : Q) : Arrow :=
  if Py.ltb prev_score score then ArrowUp
  else if Py.ltb score prev_score then ArrowDown
  else NoArrow.

(** Background of the score cell. *)
Definition score_color (score : Q) : ScoreColor :=
  if Qle_bool 85 score then BrightGreen
  else if Qle_bool 70 score then Olive
  else DarkRed.

Definition signal_text (score : Q) : SignalText :=
  if Qle_bool 85 score then TRADE_NOW
  else if Qle_bool 70 score then WATCH
  else WAIT.

(** One table row; the cells are kept as values, their formatting as
    text is left out. *)
Record Row : Set := mkRow {
  row_symbol : string;
  row_score : Q;
  row_arrow : Arrow;
  row_color : ScoreColor;
  row_bias : Bias;
  row_adx : Q;
  row_signal : SignalText;
  row_signal_highlighted : bool;
  row_price : Q;
  row_sl : Q;
  row_tp : Q;
  row_lots : Q }.

(** The body of the [for row, data in enumerate(opportunities)] loop. *)
Definition render_row (prev : previous_scores) (data : Opportunity)
    : Row * previous_scores :=
  let sym := opp_symbol data in
  let score := opp_score data in
  let prev_score := dict_get prev sym score in
  ({| row_symbol := sym;
      row_score := score;
      row_arrow := arrow_of score prev_score;
      row_color := score_color score;
      row_bias := opp_bias data;
      row_adx := opp_adx data;
      row_signal := signal_text score;
      row_signal_highlighted := Qle_bool 85 score;
      row_price := opp_price data;
      row_sl := opp_sl data;
      row_tp := opp_tp data;
      row_lots := opp_lots data |},
   dict_set prev sym score).

(** [update_table]: the table is emptied, then filled row by row. *)
Fixpoint update_table (prev : previous_scores) (opportunities : list Opportunity)
    : list Row * previous_scores :=
  match opportunities with
  | [] => ([], prev)
  | data :: rest =>
      let (row, prev1) := render_row prev data in
      let (rows, prev2) := update_table prev1 rest in
      (row :: rows, prev2)
  end.

(** The check boxes of one asset group in [create_main_area]: each symbol
    with the grid cell given to [addWidget], starting from row [r] and
    column [c]. *)
Fixpoint add_checks (syms : list string) (r c : nat)
    : list (string * (nat * nat)) :=
  match syms with
  | [] => []
  | s :: rest =>
      (s, (r, c)) ::
      (if (1 <? c + 1)%nat then add_checks rest (r + 1) 0
       else add_checks rest r (c + 1))
  end.

Definition group_grid (syms : list string) : list (string * (nat * nat)) :=
  add_checks syms 0 0.

End ScannerTable.

(** A terminal that answers [account_info()] with [acct] and everything
    else as [mt5] does. *)
Definition with_account (mt5 : MT5) (acct : option AccountInfo) : MT5 :=
  {| copy_rates_from_pos := copy_rates_from_pos mt5;
     symbol_info_tick := symbol_info_tick mt5;
     symbol_info := symbol_info mt5;
     account_info := acct |}.

(** The risk budget of [calculate_lot] and the money a size puts at risk
    over the stop distance. *)
Definition risk_money_of (self : ScannerWorker) (acct : AccountInfo) : Q :=
  balance acct * (risk_per_trade self / 100.0).

Definition money_at_risk (lots sl_points : Q) (sym_info : SymbolInfo) : Q :=
  lots * (sl_points * trade_tick_value sym_info).

(** * Properties *)

(** ** Arithmetic of the built-ins *)

Section PyFacts.

Lemma ltb_true (x y : Q) : Py.ltb x y = true <-> x < y.
Proof.
  unfold Py.ltb. rewrite negb_true_iff.
  split; intro H.
  - apply Qnot_le_lt. intro Hle.
    apply Qle_bool_iff in Hle. congruence.
  - destruct (Qle_bool y x) eqn:E; [|reflexivity].
    apply Qle_bool_iff in E. lra.
Qed.

Lemma ltb_false (x y : Q) : Py.ltb x y = false <-> y <= x.
Proof.
  unfold Py.ltb. rewrite negb_false_iff. apply Qle_bool_iff.
Qed.

Lemma min_cases (a b : Q) :
  (b < a /\ Py.min a b = b) \/ (a <= b /\ Py.min a b = a).
Proof.
  unfold Py.min. destruct (Py.ltb b a) eqn:E.
  - left. split; [now apply ltb_true | reflexivity].
  - right. split; [now apply ltb_false | reflexivity].
Qed.

Lemma max_cases (a b : Q) :
  (a < b /\ Py.max a b = b) \/ (b <= a /\ Py.max a b = a).
Proof.
  unfold Py.max. destruct (Py.ltb a b) eqn:E.
  - left. split; [now apply ltb_true | reflexivity].
  - right. split; [now apply ltb_false | reflexivity].
Qed.

Lemma min_le_r (a b : Q) : Py.min a b <= b.
Proof. destruct (min_cases a b) as [[H ->]|[H ->]]; lra. Qed.

Lemma min_glb (a b c : Q) : c <= a -> c <= b -> c <= Py.min a b.
Proof. destruct (min_cases a b) as [[H ->]|[H ->]]; lra. Qed.

Lemma max_ge_r (a b : Q) : b <= Py.max a b.
Proof. destruct (max_cases a b) as [[H ->]|[H ->]]; lra. Qed.

Lemma max_lub (a b c : Q) : a <= c -> b <= c -> Py.max a b <= c.
Proof. destruct (max_cases a b) as [[H ->]|[H ->]]; lra. Qed.

(** The fractional part seen by [round]. *)
Lemma floor_frac (x : Q) :
  0 <= x - inject_Z (Qfloor x) /\ x - inject_Z (Qfloor x) < 1.
Proof.
  pose proof (Qfloor_le x) as Hlo.
  pose proof (Qlt_floor x) as Hhi.
  rewrite inject_Z_plus in Hhi.
  change (inject_Z 1) with 1 in Hhi.
  split; lra.
Qed.

(** [round] returns the floor or the floor plus one, whichever is
    nearer. *)
Lemma round_cases (x : Q) :
  let f := inject_Z (Qfloor x) in
  (inject_Z (Py.round x) == f /\ x - f <= 1 # 2) \/
  (inject_Z (Py.round x) == f + 1 /\ 1 # 2 <= x - f).
Proof.
  intros f. subst f. unfold Py.round.
  destruct (Qcompare (x - inject_Z (Qfloor x)) (1 # 2)) eqn:E.
  - apply Qeq_alt in E.
    destruct (Z.even (Qfloor x)).
    + left. split; [reflexivity | lra].
    + right. rewrite inject_Z_plus. change (inject_Z 1) with 1.
      split; [reflexivity | lra].
  - apply Qlt_alt in E. left. split; [reflexivity | lra].
  - apply Qgt_alt in E. right. rewrite inject_Z_plus.
    change (inject_Z 1) with 1. split; [reflexivity | lra].
Qed.

Lemma round_error (x : Q) : Qabs (inject_Z (Py.round x) - x) <= 1 # 2.
Proof.
  apply Qabs_Qle_condition.
  pose proof (floor_frac x) as [H0 H1].
  destruct (round_cases x) as [[-> H]|[-> H]]; split; lra.
Qed.

(** An integer on either side of [x] in terms of the floor. *)
Lemma int_vs_floor (x : Q) (m : Z) :
  inject_Z m <= inject_Z (Qfloor x) \/ inject_Z (Qfloor x) + 1 <= inject_Z m.
Proof.
  destruct (Z_le_gt_dec m (Qfloor x)) as [H|H].
  - left. now rewrite <- Zle_Qle.
  - right. assert (Qfloor x + 1 <= m)%Z as H' by lia.
    rewrite Zle_Qle, inject_Z_plus in H'. exact H'.
Qed.

(** No integer is nearer to [x] than [round x]. *)
Lemma round_nearest (x : Q) (m : Z) :
  Qabs (inject_Z (Py.round x) - x) <= Qabs (inject_Z m - x).
Proof.
  apply Qabs_Qle_condition.
  pose proof (Qle_Qabs (inject_Z m - x)) as Hp.
  pose proof (Qle_Qabs (- (inject_Z m - x))) as Hn.
  rewrite Qabs_opp in Hn.
  pose proof (floor_frac x) as [H0 H1].
  destruct (int_vs_floor x m) as [Hm|Hm];
    destruct (round_cases x) as [[-> H]|[-> H]]; split; lra.
Qed.

(** [round] is monotone against integer bounds. *)
Lemma round_ge_int (x : Q) (n : Z) :
  inject_Z n <= x -> inject_Z n <= inject_Z (Py.round x).
Proof.
  intro Hn.
  assert (inject_Z n <= inject_Z (Qfloor x)) as Hf.
  { rewrite <- Zle_Qle. rewrite <- (Qfloor_Z n). now apply Qfloor_resp_le. }
  destruct (round_cases x) as [[-> H]|[-> H]]; lra.
Qed.

Lemma round_le_int (x : Q) (n : Z) :
  x <= inject_Z n -> inject_Z (Py.round x) <= inject_Z n.
Proof.
  intro Hn.
  pose proof (floor_frac x) as [H0 H1].
  destruct (int_vs_floor x n) as [Hm|Hm];
    destruct (round_cases x) as [[-> H]|[-> H]]; lra.
Qed.

Lemma round1_range (x lo hi : Q) (nlo nhi : Z) :
  lo * 10 == inject_Z nlo -> hi * 10 == inject_Z nhi ->
  lo <= x <= hi -> lo <= Py.round1 x <= hi.
Proof.
  intros Hlo Hhi [H1 H2]. unfold Py.round1.
  pose proof (round_ge_int (x * 10) nlo) as Ha.
  pose proof (round_le_int (x * 10) nhi) as Hb.
  assert (inject_Z nlo <= inject_Z (Py.round (x * 10))) as Ha' by (apply Ha; lra).
  assert (inject_Z (Py.round (x * 10)) <= inject_Z nhi) as Hb' by (apply Hb; lra).
  split.
  - apply Qle_shift_div_l; [reflexivity | lra].
  - apply Qle_shift_div_r; [reflexivity | lra].
Qed.

End PyFacts.

(** ** What [analyze_symbol] returns *)

Section AnalyzeFacts.

Variable ta : list Bar -> result Indicators.
Variable self : ScannerWorker.
Variable mt5 : MT5.

Lemma truediv_ok (x y : Q) : ~ y == 0 -> Py.truediv x y = Ok (x / y).
Proof.
  intro H. unfold Py.truediv.
  destruct (Qeq_bool y 0) eqn:E; [|reflexivity].
  apply Qeq_bool_eq in E. contradiction.
Qed.

Lemma truediv_inv (x y q : Q) :
  Py.truediv x y = Ok q -> ~ y == 0 /\ q = x / y.
Proof.
  unfold Py.truediv. destruct (Qeq_bool y 0) eqn:E; [discriminate|].
  intro H. injection H as <-. split; [|reflexivity].
  now apply Qeq_bool_neq.
Qed.

(** With its inputs present, an evaluation is decided by the sizing. *)
Lemma analyze_symbol_evaluated symbol rates ind curr tick sym_info :
  Evaluated ta self mt5 symbol rates ind curr tick sym_info ->
  let b := determine_bias (bar_close curr) (ema ind) in
  analyze_symbol_try ta self mt5 symbol =
    (lot_size <-
       calculate_lot self mt5 symbol (sl_points_of b tick ind sym_info) ;;
     Ok (Some {| opp_symbol := symbol;
                 opp_score := score_of curr ind tick sym_info;
                 opp_bias := b;
                 opp_price := setup_entry b tick;
                 opp_sl := setup_sl b tick ind;
                 opp_tp := setup_tp self b tick ind;
                 opp_lots := lot_size;
                 opp_adx := adx ind |})).
Proof.
  intros [Hr Hl Ht Hc Hk Hi Hp] b.
  unfold analyze_symbol_try. rewrite Hr.
  apply Nat.ltb_ge in Hl. rewrite Hl.
  rewrite Ht. cbn [Py.bind]. rewrite Hc. cbn [Py.bind].
  rewrite Hk, Hi. cbn [Py.bind Py.attr_of].
  rewrite (truediv_ok _ _ Hp). cbn [Py.bind]. reflexivity.
Qed.

(** An emitted opportunity comes from a complete evaluation. *)
Lemma analyze_symbol_try_emits symbol opp :
  analyze_symbol_try ta self mt5 symbol = Ok (Some opp) ->
  exists rates ind curr tick sym_info,
    Evaluated ta self mt5 symbol rates ind curr tick sym_info.
Proof.
  unfold analyze_symbol_try.
  destruct (copy_rates_from_pos mt5 symbol (timeframe self) 0 bars)
    as [rates|] eqn:Hr; [|discriminate].
  destruct (List.length rates <? bars)%nat eqn:Hl; [discriminate|].
  destruct (ta rates) as [ind|] eqn:Ht; [|discriminate].
  cbn [Py.bind].
  destruct (Py.iloc_last rates) as [curr|] eqn:Hc; [|discriminate].
  cbn [Py.bind].
  destruct (symbol_info_tick mt5 symbol) as [tick|] eqn:Hk; [|discriminate].
  destruct (symbol_info mt5 symbol) as [sym_info|] eqn:Hi; [|discriminate].
  cbn [Py.bind Py.attr_of].
  destruct (Py.truediv (ask tick - bid tick) (point sym_info))
    as [sp|] eqn:Hd; [|discriminate].
  intros _. apply truediv_inv in Hd as [Hp _].
  exists rates, ind, curr, tick, sym_info.
  apply Nat.ltb_ge in Hl. now constructor.
Qed.

Lemma analyze_symbol_try_of symbol opp :
  analyze_symbol ta self mt5 symbol = Some opp ->
  analyze_symbol_try ta self mt5 symbol = Ok (Some opp).
Proof.
  unfold analyze_symbol.
  destruct (analyze_symbol_try ta self mt5 symbol) as [[o|]|];
    congruence.
Qed.

(** The fields of an emitted opportunity. *)
Lemma analyze_symbol_fields symbol rates ind curr tick sym_info opp :
  Evaluated ta self mt5 symbol rates ind curr tick sym_info ->
  analyze_symbol ta self mt5 symbol = Some opp ->
  let b := determine_bias (bar_close curr) (ema ind) in
  opp_symbol opp = symbol /\
  opp_score opp = score_of curr ind tick sym_info /\
  opp_bias opp = b /\
  opp_price opp = setup_entry b tick /\
  opp_sl opp = setup_sl b tick ind /\
  opp_tp opp = setup_tp self b tick ind /\
  calculate_lot self mt5 symbol (sl_points_of b tick ind sym_info)
    = Ok (opp_lots opp) /\
  opp_adx opp = adx ind.
Proof.
  intros Hev Hs b. apply analyze_symbol_try_of in Hs.
  rewrite (analyze_symbol_evaluated _ _ _ _ _ _ Hev) in Hs.
  fold b in Hs.
  destruct (calculate_lot self mt5 symbol (sl_points_of b tick ind sym_info))
    as [lots|]; [|discriminate].
  cbn [Py.bind] in Hs. injection Hs as <-. cbn.
  repeat split; reflexivity.
Qed.

End AnalyzeFacts.

Lemma determine_bias_cases (close ema_v : Q) :
  (ema_v < close /\ determine_bias close ema_v = BULLISH) \/
  (close < ema_v /\ determine_bias close ema_v = BEARISH) \/
  (close == ema_v /\ determine_bias close ema_v = NEUTRAL).
Proof.
  unfold determine_bias.
  destruct (Py.ltb ema_v close) eqn:E1.
  - left. split; [now apply ltb_true | reflexivity].
  - destruct (Py.ltb close ema_v) eqn:E2.
    + right; left. split; [now apply ltb_true | reflexivity].
    + right; right. apply ltb_false in E1, E2. split; [lra | reflexivity].
Qed.

(** ** Facts about the concrete scenario *)

Module ScenarioFacts.

Import Scenario.
Local Open Scope string_scope.

Lemma point_nonzero tv : ~ point (info tv) == 0.
Proof. cbn. lra. Qed.

Lemma evaluated_EURUSD :
  Evaluated ta self mt5 "EURUSD" (List.repeat (bar_at 1.1050) 250)
    (ind_at 1.1050) (bar_at 1.1050)
    {| bid := 1.1048; ask := 1.1052 |} (info 1.0).
Proof.
  constructor; try reflexivity. apply point_nonzero.
Qed.

Lemma evaluated_GBPUSD :
  Evaluated ta self mt5 "GBPUSD" (List.repeat (bar_at 1.1000) 250)
    (ind_at 1.1000) (bar_at 1.1000)
    {| bid := 1.0999; ask := 1.1001 |} (info 1.0).
Proof.
  constructor; try reflexivity. apply point_nonzero.
Qed.

Lemma evaluated_XAUUSD :
  Evaluated ta self mt5 "XAUUSD" (List.repeat (bar_at 1.0950) 250)
    (ind_at 1.0950) (bar_at 1.0950)
    {| bid := 1.0949; ask := 1.0951 |} (info 0).
Proof.
  constructor; try reflexivity. apply point_nonzero.
Qed.

Lemma emitted_EURUSD :
  exists opp, analyze_symbol ta self mt5 "EURUSD" = Some opp /\
              opp_eqb opp opp_EURUSD = true.
Proof. eexists. split; [vm_compute; reflexivity | vm_compute; reflexivity]. Qed.

Lemma emitted_GBPUSD :
  exists opp, analyze_symbol ta self mt5 "GBPUSD" = Some opp /\
              opp_eqb opp opp_GBPUSD = true.
Proof. eexists. split; [vm_compute; reflexivity | vm_compute; reflexivity]. Qed.

End ScenarioFacts.

(** ** Bias *)

(** C5. For an evaluated symbol the emitted bias is the one derived from
    close and the trend filter: BULLISH exactly when close is above the
    filter, BEARISH exactly when it is below, NEUTRAL exactly when the
    two are equal. *)
Theorem bias_iff_close_vs_trend_filter
    ta self mt5 symbol rates ind curr tick sym_info opp :
  Evaluated ta self mt5 symbol rates ind curr tick sym_info ->
  analyze_symbol ta self mt5 symbol = Some opp ->
  opp_bias opp = determine_bias (bar_close curr) (ema ind) /\
  (opp_bias opp = BULLISH <-> ema ind < bar_close curr) /\
  (opp_bias opp = BEARISH <-> bar_close curr < ema ind) /\
  (opp_bias opp = NEUTRAL <-> bar_close curr == ema ind).
Proof.
  intros Hev Hs.
  destruct (analyze_symbol_fields _ _ _ _ _ _ _ _ _ _ Hev Hs)
    as (_ & _ & Hb & _).
  rewrite Hb. split; [reflexivity|].
  destruct (determine_bias_cases (bar_close curr) (ema ind))
    as [[H ->]|[[H ->]|[H ->]]];
    repeat split; intro; try discriminate; try reflexivity; try lra.
Qed.

Lemma bias_iff_close_vs_trend_filter_witness :
  exists opp,
    analyze_symbol Scenario.ta Scenario.self Scenario.mt5 "EURUSD" = Some opp /\
    (opp_bias opp = BULLISH <-> 1.1000 < 1.1050) /\
    (opp_bias opp = BEARISH <-> 1.1050 < 1.1000) /\
    (opp_bias opp = NEUTRAL <-> 1.1050 == 1.1000).
Proof.
  eexists. split; [vm_compute; reflexivity|].
  refine (proj2 (bias_iff_close_vs_trend_filter _ _ _ _ _ _ _ _ _ _
                   ScenarioFacts.evaluated_EURUSD _)).
  vm_compute; reflexivity.
Defined.

(** ** Defaults *)

(** C9. A freshly constructed worker holds risk percent 0.5 but
    reward:risk 1.5, not 2.0; the value 2.0 is the start value of the
    spin box and reaches the worker only through [set_config]. *)
Theorem init_defaults :
  risk_per_trade ScannerWorker_init == 0.5 /\
  rr_ratio ScannerWorker_init == 1.5 /\
  ~ rr_ratio ScannerWorker_init == 2.0 /\
  (forall selected,
      risk_per_trade (ScannerGUI.toggle_scan ScannerWorker_init selected) == 0.5 /\
      rr_ratio (ScannerGUI.toggle_scan ScannerWorker_init selected) == 2.0).
Proof.
  cbn. repeat split; try reflexivity.
  intro H. discriminate H.
Qed.

(** ** Sizing outcomes *)

Section LotFacts.

Variable self : ScannerWorker.
Variable mt5 : MT5.
Variable symbol : string.
Variable acct : AccountInfo.
Variable sym_info : SymbolInfo.
Hypothesis Hacct : account_info mt5 = Some acct.
Hypothesis Hinfo : symbol_info mt5 symbol = Some sym_info.

Lemma calculate_lot_degenerate (sl_points : Q) :
  trade_tick_value sym_info == 0 \/ sl_points == 0 ->
  calculate_lot self mt5 symbol sl_points = Ok 0.0.
Proof.
  intro H. unfold calculate_lot. rewrite Hacct, Hinfo. cbn [Py.attr_of Py.bind].
  destruct H as [H|H]; apply Qeq_eq_bool in H; rewrite H;
    [reflexivity | now rewrite orb_true_r].
Qed.

Lemma calculate_lot_regular (sl_points : Q) :
  ~ trade_tick_value sym_info == 0 -> ~ sl_points == 0 ->
  ~ volume_step sym_info == 0 ->
  calculate_lot self mt5 symbol sl_points
    = Ok (clamp_lot (quantized_lot_of self acct sym_info sl_points) sym_info).
Proof.
  intros Ht Hs Hv. unfold calculate_lot.
  rewrite Hacct, Hinfo. cbn [Py.attr_of Py.bind].
  destruct (Qeq_bool (trade_tick_value sym_info) 0) eqn:E1;
    [apply Qeq_bool_eq in E1; contradiction|].
  destruct (Qeq_bool sl_points 0) eqn:E2;
    [apply Qeq_bool_eq in E2; contradiction|].
  cbn [orb]. unfold quantize. rewrite (truediv_ok _ _ Hv).
  reflexivity.
Qed.

(** With the account and the metadata there, sizing returns unless the
    volume step is zero. *)
Lemma calculate_lot_returns (sl_points : Q) :
  ~ volume_step sym_info == 0 ->
  exists lots, calculate_lot self mt5 symbol sl_points = Ok lots.
Proof.
  intro Hv.
  destruct (Qeq_dec (trade_tick_value sym_info) 0) as [Ht|Ht].
  { eexists. apply calculate_lot_degenerate. now left. }
  destruct (Qeq_dec sl_points 0) as [Hs|Hs].
  { eexists. apply calculate_lot_degenerate. now right. }
  eexists. now apply calculate_lot_regular.
Qed.

End LotFacts.

(** An evaluation whose sizing returns emits its opportunity. *)
Lemma analyze_symbol_sized ta self mt5 symbol rates ind curr tick sym_info lots :
  Evaluated ta self mt5 symbol rates ind curr tick sym_info ->
  let b := determine_bias (bar_close curr) (ema ind) in
  calculate_lot self mt5 symbol (sl_points_of b tick ind sym_info) = Ok lots ->
  analyze_symbol ta self mt5 symbol =
    Some {| opp_symbol := symbol;
            opp_score := score_of curr ind tick sym_info;
            opp_bias := b;
            opp_price := setup_entry b tick;
            opp_sl := setup_sl b tick ind;
            opp_tp := setup_tp self b tick ind;
            opp_lots := lots;
            opp_adx := adx ind |}.
Proof.
  intros Hev b Hl. unfold analyze_symbol.
  rewrite (analyze_symbol_evaluated _ _ _ _ _ _ _ _ _ Hev).
  fold b. rewrite Hl. reflexivity.
Qed.

(** ** Trade setup *)

(** C3. An emitted BULLISH opportunity enters at the ask with the stop
    1.5 volatilities below and the target [rr_ratio] risks above; an
    emitted BEARISH one enters at the bid with the stop 1.5 volatilities
    above and the target [rr_ratio] risks below. *)
Theorem setup_by_bias ta self mt5 symbol rates ind curr tick sym_info opp :
  Evaluated ta self mt5 symbol rates ind curr tick sym_info ->
  analyze_symbol ta self mt5 symbol = Some opp ->
  (opp_bias opp = BULLISH ->
     opp_price opp == ask tick /\
     opp_sl opp == opp_price opp - 1.5 * atr ind /\
     opp_tp opp == opp_price opp + (opp_price opp - opp_sl opp) * rr_ratio self /\
     opp_tp opp - opp_price opp == rr_ratio self * (opp_price opp - opp_sl opp)) /\
  (opp_bias opp = BEARISH ->
     opp_price opp == bid tick /\
     opp_sl opp == opp_price opp + 1.5 * atr ind /\
     opp_tp opp == opp_price opp - (opp_sl opp - opp_price opp) * rr_ratio self).
Proof.
  intros Hev Hs.
  destruct (analyze_symbol_fields _ _ _ _ _ _ _ _ _ _ Hev Hs)
    as (_ & _ & Hb & Hp & Hsl & Htp & _).
  rewrite Hp, Hsl, Htp.
  split; intro Hbias; rewrite Hb in Hbias; rewrite Hbias;
    unfold setup_tp, setup_sl, setup_entry, PropGuardConfig.ATR_MULTIPLIER;
    repeat split; try reflexivity; ring.
Qed.

Lemma setup_by_bias_witness :
  exists opp,
    analyze_symbol Scenario.ta Scenario.self Scenario.mt5 "EURUSD" = Some opp /\
    opp_bias opp = BULLISH /\
    opp_price opp == 1.1052 /\
    opp_sl opp == opp_price opp - 1.5 * 0.0010 /\
    opp_tp opp == opp_price opp + (opp_price opp - opp_sl opp) * 2.0 /\
    opp_tp opp - opp_price opp == 2.0 * (opp_price opp - opp_sl opp).
Proof.
  eexists. split; [vm_compute; reflexivity|].
  split; [reflexivity|].
  refine (proj1 (setup_by_bias _ _ _ _ _ _ _ _ _ _
                   ScenarioFacts.evaluated_EURUSD _) _);
    vm_compute; reflexivity.
Defined.

(** ** NEUTRAL bias *)

(** C10. An emitted NEUTRAL opportunity was scored with a momentum
    sub-score of 0 and a structure distance taken from the bid to the
    channel low, and carries the bearish setup: entry at the bid, stop
    1.5 volatilities above, target [rr_ratio] risks below. *)
Theorem neutral_takes_bearish_branches
    ta self mt5 symbol rates ind curr tick sym_info opp :
  Evaluated ta self mt5 symbol rates ind curr tick sym_info ->
  analyze_symbol ta self mt5 symbol = Some opp ->
  opp_bias opp = NEUTRAL ->
  bar_close curr == ema ind /\
  score_mom (opp_bias opp) ind == 0 /\
  dist_to_break (opp_bias opp) ind tick = Qabs (bid tick - dcl ind) /\
  (~ atr ind == 0 -> ~ bar_close curr == 0 ->
   opp_score opp =
     final_score (score_trend (bar_close curr) ind) 0.0
       (score_vol (bar_close curr) ind)
       (1.0 - Py.min (Qabs (bid tick - dcl ind) / (atr ind * 1.5)) 1.0)
       (score_liq ((ask tick - bid tick) / point sym_info) ind sym_info)) /\
  opp_price opp == bid tick /\
  opp_sl opp == opp_price opp + 1.5 * atr ind /\
  opp_tp opp == opp_price opp - (opp_sl opp - opp_price opp) * rr_ratio self.
Proof.
  intros Hev Hs Hn.
  destruct (analyze_symbol_fields _ _ _ _ _ _ _ _ _ _ Hev Hs)
    as (_ & Hsc & Hb & Hp & Hsl & Htp & _).
  rewrite Hn in Hb. symmetry in Hb.
  split.
  { destruct (determine_bias_cases (bar_close curr) (ema ind))
      as [[H E]|[[H E]|[H E]]]; [congruence | congruence | exact H]. }
  rewrite Hsc, Hp, Hsl, Htp, Hn. unfold score_of. rewrite Hb.
  unfold setup_tp, setup_sl, setup_entry, PropGuardConfig.ATR_MULTIPLIER.
  repeat split; try reflexivity; ring.
Qed.

Lemma neutral_takes_bearish_branches_witness :
  exists opp,
    analyze_symbol Scenario.ta Scenario.self Scenario.mt5 "GBPUSD" = Some opp /\
    opp_bias opp = NEUTRAL /\
    score_mom (opp_bias opp) (Scenario.ind_at 1.1000) == 0 /\
    opp_score opp == 10.3 /\
    opp_price opp == 1.0999 /\
    opp_sl opp == opp_price opp + 1.5 * 0.0010 /\
    opp_tp opp == opp_price opp - (opp_sl opp - opp_price opp) * 2.0.
Proof.
  eexists. split; [vm_compute; reflexivity|].
  split; [reflexivity|].
  pose proof (neutral_takes_bearish_branches _ _ _ _ _ _ _ _ _ _
                ScenarioFacts.evaluated_GBPUSD eq_refl eq_refl)
    as (_ & Hm & _ & Hsc & Hp & Hsl & Htp).
  split; [exact Hm|].
  split.
  { refine (eq_ind_r (fun q => q == 10.3) _ (Hsc _ _));
      [vm_compute; reflexivity | cbn; lra | cbn; lra]. }
  split; [exact Hp|]. split; [exact Hsl | exact Htp].
Defined.

(** C2, as stated, fails: a symbol whose close equals the trend filter
    and whose inputs are all present is not skipped. *)
Lemma neutral_is_not_skipped_counterexample :
  ~ (forall ta self mt5 symbol rates ind curr tick sym_info,
        Evaluated ta self mt5 symbol rates ind curr tick sym_info ->
        bar_close curr == ema ind ->
        analyze_symbol ta self mt5 symbol = None).
Proof.
  intro H.
  specialize (H _ _ _ _ _ _ _ _ _ ScenarioFacts.evaluated_GBPUSD).
  assert (bar_close (Scenario.bar_at 1.1000)
          == ema (Scenario.ind_at 1.1000)) as Heq by reflexivity.
  specialize (H Heq).
  vm_compute in H. discriminate H.
Qed.

(** C2, amended. A symbol is skipped (nothing emitted) when its bars are
    missing or fewer than 250, when the indicator computation fails, when
    the quote is missing or when the metadata is missing; a NEUTRAL bias
    alone does not skip it: with all inputs present and a sizing that
    returns, its opportunity is emitted with bias NEUTRAL. *)
Theorem skipped_on_missing_input_not_on_neutral ta self mt5 symbol :
  (copy_rates_from_pos mt5 symbol (timeframe self) 0 bars = None \/
   (exists rates,
       copy_rates_from_pos mt5 symbol (timeframe self) 0 bars = Some rates /\
       ((List.length rates < bars)%nat \/ exists e, ta rates = Raise e)) \/
   symbol_info_tick mt5 symbol = None \/
   symbol_info mt5 symbol = None ->
   analyze_symbol ta self mt5 symbol = None) /\
  (forall rates ind curr tick sym_info acct,
      Evaluated ta self mt5 symbol rates ind curr tick sym_info ->
      account_info mt5 = Some acct ->
      ~ volume_step sym_info == 0 ->
      bar_close curr == ema ind ->
      exists opp,
        analyze_symbol ta self mt5 symbol = Some opp /\
        opp_bias opp = NEUTRAL).
Proof.
  split.
  - intro H. unfold analyze_symbol, analyze_symbol_try.
    destruct (copy_rates_from_pos mt5 symbol (timeframe self) 0 bars)
      as [rates|] eqn:Hr; [|reflexivity].
    destruct (List.length rates <? bars)%nat eqn:Hl; [reflexivity|].
    destruct (ta rates) as [ind|e0] eqn:Ht; [|reflexivity].
    cbn [Py.bind].
    destruct (Py.iloc_last rates) as [curr|] eqn:Hc; [|reflexivity].
    cbn [Py.bind].
    destruct (symbol_info_tick mt5 symbol) as [tick|] eqn:Hk; [|reflexivity].
    destruct (symbol_info mt5 symbol) as [sym_info|] eqn:Hi; [|reflexivity].
    exfalso. apply Nat.ltb_ge in Hl.
    destruct H as [H|[(r & Hr' & [H|[e H]])|[H|H]]]; try discriminate.
    + injection Hr' as <-. lia.
    + injection Hr' as <-. congruence.
  - intros rates ind curr tick sym_info acct Hev Ha Hv Heq.
    destruct (calculate_lot_returns self mt5 symbol acct sym_info Ha
                (ev_info _ _ _ _ _ _ _ _ _ Hev)
                (sl_points_of (determine_bias (bar_close curr) (ema ind))
                   tick ind sym_info) Hv) as [lots Hl].
    eexists. split.
    + exact (analyze_symbol_sized _ _ _ _ _ _ _ _ _ _ Hev Hl).
    + cbn. destruct (determine_bias_cases (bar_close curr) (ema ind))
        as [[H E]|[[H E]|[H E]]]; try lra. exact E.
Qed.

Lemma skipped_on_missing_input_not_on_neutral_witness :
  analyze_symbol Scenario.ta Scenario.self Scenario.mt5 "BTCUSD" = None /\
  exists opp,
    analyze_symbol Scenario.ta Scenario.self Scenario.mt5 "GBPUSD" = Some opp /\
    opp_bias opp = NEUTRAL.
Proof.
  split.
  - apply (proj1 (skipped_on_missing_input_not_on_neutral
                    Scenario.ta Scenario.self Scenario.mt5 "BTCUSD")).
    left. reflexivity.
  - apply (proj2 (skipped_on_missing_input_not_on_neutral
                    Scenario.ta Scenario.self Scenario.mt5 "GBPUSD")
             _ _ _ _ _ _ ScenarioFacts.evaluated_GBPUSD eq_refl).
    + cbn. lra.
    + reflexivity.
Defined.

(** ** Degenerate sizing *)

(** C8. When the tick value or the stop distance in points is zero, and
    the inputs of the evaluation are present, the opportunity is still
    emitted, with its score, bias, entry, stop and target, and with zero
    lots. *)
Theorem degenerate_sizing_emits_zero_lots
    ta self mt5 symbol rates ind curr tick sym_info acct :
  Evaluated ta self mt5 symbol rates ind curr tick sym_info ->
  account_info mt5 = Some acct ->
  let b := determine_bias (bar_close curr) (ema ind) in
  trade_tick_value sym_info == 0 \/ sl_points_of b tick ind sym_info == 0 ->
  exists opp,
    analyze_symbol ta self mt5 symbol = Some opp /\
    opp_lots opp == 0 /\
    (~ atr ind == 0 -> ~ bar_close curr == 0 ->
     opp_score opp = score_of curr ind tick sym_info) /\
    opp_bias opp = b /\
    opp_price opp = setup_entry b tick /\
    opp_sl opp = setup_sl b tick ind /\
    opp_tp opp = setup_tp self b tick ind.
Proof.
  intros Hev Ha b Hz.
  pose proof (calculate_lot_degenerate self mt5 symbol acct sym_info Ha
                (ev_info _ _ _ _ _ _ _ _ _ Hev) _ Hz) as Hl.
  eexists. split.
  - exact (analyze_symbol_sized _ _ _ _ _ _ _ _ _ _ Hev Hl).
  - cbn. repeat split; reflexivity.
Qed.

Lemma degenerate_sizing_emits_zero_lots_witness :
  exists opp,
    analyze_symbol Scenario.ta Scenario.self Scenario.mt5 "XAUUSD" = Some opp /\
    opp_lots opp == 0 /\
    opp_score opp == 28.3 /\
    opp_bias opp = BEARISH.
Proof.
  destruct (degenerate_sizing_emits_zero_lots _ _ _ _ _ _ _ _ _
              {| balance := 10000; equity := 10000 |}
              ScenarioFacts.evaluated_XAUUSD eq_refl)
    as (opp & Hs & Hl & Hsc & Hb & _).
  - left. reflexivity.
  - exists opp. split; [exact Hs|]. split; [exact Hl|].
    split; [|exact Hb].
    refine (eq_ind_r (fun q => q == 28.3) _ (Hsc _ _));
      [vm_compute; reflexivity | cbn; lra | cbn; lra].
Defined.

(** ** The score *)

Section ScoreRanges.

Lemma div_nonneg (a b : Q) : 0 <= a -> 0 < b -> 0 <= a / b.
Proof. intros Ha Hb. apply Qle_shift_div_l; [exact Hb | lra]. Qed.

Lemma div_pos (a b : Q) : 0 < a -> 0 < b -> 0 < a / b.
Proof. intros Ha Hb. apply Qlt_shift_div_l; [exact Hb | lra]. Qed.

(** [min(max(x, 0), 1)] *)
Lemma clamp_min_max_range (x : Q) : 0 <= Py.min (Py.max x 0) 1 <= 1.
Proof.
  split; [|apply min_le_r].
  apply min_glb; [apply max_ge_r | lra].
Qed.

(** [max(min(x, 1), 0)] *)
Lemma clamp_max_min_range (x : Q) : 0 <= Py.max (Py.min x 1) 0 <= 1.
Proof.
  split; [apply max_ge_r|].
  apply max_lub; [apply min_le_r | lra].
Qed.

Lemma trend_str_range (close ema_v atr_v : Q) :
  0 < atr_v -> 0 <= trend_str close ema_v atr_v <= 1.
Proof.
  intro Ha. unfold trend_str. split.
  - apply min_glb; [|lra].
    apply div_nonneg; [apply Qabs_nonneg | lra].
  - pose proof (min_le_r (Qabs (close - ema_v) / (atr_v * 2.0)) 1.0). lra.
Qed.

Lemma score_trend_range (close : Q) (curr : Indicators) :
  0 < atr curr -> 0 <= score_trend close curr <= 1.
Proof.
  intro Ha. unfold score_trend.
  pose proof (trend_str_range close (ema curr) (atr curr) Ha).
  pose proof (clamp_min_max_range ((adx curr - 20) / 25)).
  unfold adx_norm. split; lra.
Qed.

Lemma score_mom_range (b : Bias) (curr : Indicators) :
  0 <= score_mom b curr <= 1.
Proof.
  destruct b; cbn [score_mom].
  - apply clamp_max_min_range.
  - apply clamp_max_min_range.
  - split; lra.
Qed.

Lemma score_vol_range (close : Q) (curr : Indicators) :
  0 <= score_vol close curr <= 1.
Proof. unfold score_vol. apply clamp_min_max_range. Qed.

Lemma dist_to_break_nonneg (b : Bias) (curr : Indicators) (tick : Tick) :
  0 <= dist_to_break b curr tick.
Proof. destruct b; cbn [dist_to_break]; apply Qabs_nonneg. Qed.

Lemma score_struct_range (b : Bias) (curr : Indicators) (tick : Tick) :
  0 < atr curr -> 0 <= score_struct b curr tick <= 1.
Proof.
  intro Ha. unfold score_struct.
  pose proof (min_le_r (dist_to_break b curr tick / (atr curr * 1.5)) 1.0) as Hle.
  assert (0 <= Py.min (dist_to_break b curr tick / (atr curr * 1.5)) 1.0) as Hge.
  { apply min_glb; [|lra].
    apply div_nonneg; [apply dist_to_break_nonneg | lra]. }
  split; lra.
Qed.

Lemma score_liq_range (tick : Tick) (curr : Indicators) (sym_info : SymbolInfo) :
  0 < atr curr -> 0 < point sym_info -> bid tick <= ask tick ->
  0 <= score_liq ((ask tick - bid tick) / point sym_info) curr sym_info <= 1.
Proof.
  intros Ha Hp Hs. unfold score_liq.
  set (x := (ask tick - bid tick) / point sym_info
            / (atr curr / point sym_info * 0.2)).
  assert (0 <= x) as Hx.
  { apply div_nonneg.
    - apply div_nonneg; [lra | exact Hp].
    - pose proof (div_pos (atr curr) (point sym_info) Ha Hp). lra. }
  pose proof (max_ge_r (1.0 - x) 0.0) as Hlo.
  pose proof (max_lub (1.0 - x) 0.0 1) as Hhi.
  split; [lra | apply Hhi; lra].
Qed.

Lemma weighted_score_range (t m v s l : Q) :
  0 <= t <= 1 -> 0 <= m <= 1 -> 0 <= v <= 1 -> 0 <= s <= 1 -> 0 <= l <= 1 ->
  0 <= weighted_score t m v s l <= 100.
Proof. unfold weighted_score. intros. split; lra. Qed.

End ScoreRanges.

(** C1. For an emitted opportunity computed with volatility > 0,
    close > 0, point size > 0 and ask >= bid, each of the five sub-scores
    lies in [0,1]; the emitted score is the weighted sum with weights
    0.30, 0.20, 0.15, 0.25, 0.10 (which add up to 1), times 100 and
    rounded to one decimal; and the score lies in [0,100]. *)
Theorem score_is_rounded_weighted_sum
    ta self mt5 symbol rates ind curr tick sym_info opp :
  Evaluated ta self mt5 symbol rates ind curr tick sym_info ->
  analyze_symbol ta self mt5 symbol = Some opp ->
  0 < atr ind -> 0 < bar_close curr -> 0 < point sym_info ->
  bid tick <= ask tick ->
  let b := determine_bias (bar_close curr) (ema ind) in
  let trend := score_trend (bar_close curr) ind in
  let momentum := score_mom b ind in
  let volatility := score_vol (bar_close curr) ind in
  let structure := score_struct b ind tick in
  let liquidity :=
    score_liq ((ask tick - bid tick) / point sym_info) ind sym_info in
  0 <= trend <= 1 /\ 0 <= momentum <= 1 /\ 0 <= volatility <= 1 /\
  0 <= structure <= 1 /\ 0 <= liquidity <= 1 /\
  opp_score opp ==
    Py.round1 (100 * (0.30 * trend + 0.20 * momentum + 0.15 * volatility
                      + 0.25 * structure + 0.10 * liquidity)) /\
  0.30 + 0.20 + 0.15 + 0.25 + 0.10 == 1.0 /\
  0 <= opp_score opp <= 100.
Proof.
  intros Hev Hs Ha Hc Hp Hq b trend momentum volatility structure liquidity.
  destruct (analyze_symbol_fields _ _ _ _ _ _ _ _ _ _ Hev Hs)
    as (_ & Hsc & _).
  pose proof (score_trend_range (bar_close curr) ind Ha) as Ht.
  pose proof (score_mom_range b ind) as Hm.
  pose proof (score_vol_range (bar_close curr) ind) as Hv.
  pose proof (score_struct_range b ind tick Ha) as Hst.
  pose proof (score_liq_range tick ind sym_info Ha Hp Hq) as Hl.
  fold trend in Ht. fold momentum in Hm. fold volatility in Hv.
  fold structure in Hst. fold liquidity in Hl.
  repeat (split; [assumption|]).
  rewrite Hsc. unfold score_of, final_score.
  fold b trend momentum volatility structure liquidity.
  split; [reflexivity|]. split; [reflexivity|].
  apply (round1_range _ 0 100 0 1000); [reflexivity | reflexivity |].
  now apply weighted_score_range.
Qed.

Lemma score_is_rounded_weighted_sum_witness :
  exists opp,
    analyze_symbol Scenario.ta Scenario.self Scenario.mt5 "EURUSD" = Some opp /\
    opp_score opp == 55.9 /\
    0 <= opp_score opp <= 100.
Proof.
  eexists. split; [vm_compute; reflexivity|].
  split; [vm_compute; reflexivity|].
  refine (proj2 (proj2 (proj2 (proj2 (proj2 (proj2 (proj2
    (score_is_rounded_weighted_sum _ _ _ _ _ _ _ _ _ _
       ScenarioFacts.evaluated_EURUSD eq_refl _ _ _ _)))))))); cbn; lra.
Defined.

(** ** Lot size *)

Section LotQuantization.

Lemma clamp_lot_cases (lot : Q) (sym_info : SymbolInfo) :
  (volume_max sym_info < lot /\ clamp_lot lot sym_info = volume_max sym_info) \/
  (lot <= volume_max sym_info /\ lot < volume_min sym_info /\
     clamp_lot lot sym_info = volume_min sym_info) \/
  (lot <= volume_max sym_info /\ volume_min sym_info <= lot /\
     clamp_lot lot sym_info = lot).
Proof.
  unfold clamp_lot.
  destruct (Qle_bool lot (volume_max sym_info)) eqn:E.
  - apply Qle_bool_iff in E. right.
    destruct (max_cases lot (volume_min sym_info)) as [[H ->]|[H ->]].
    + left. repeat split; [exact E | exact H].
    + right. repeat split; [exact E | exact H].
  - left. split; [|reflexivity].
    apply Qnot_le_lt. intro H. apply Qle_bool_iff in H. congruence.
Qed.

(** Rounding the quotient and scaling back lands on a nearest multiple
    of the step. *)
Lemma quantize_nearest (raw step : Q) (m : Z) :
  0 < step ->
  Qabs (inject_Z (Py.round (raw / step)) * step - raw)
    <= Qabs (inject_Z m * step - raw).
Proof.
  intro Hs.
  assert (forall z : Q, z * step - raw == (z - raw / step) * step) as Hf.
  { intro z. field. lra. }
  rewrite (Hf (inject_Z (Py.round (raw / step)))), (Hf (inject_Z m)).
  rewrite !Qabs_Qmult. rewrite (Qabs_pos step) by lra.
  apply Qmult_le_compat_r; [apply round_nearest | lra].
Qed.

Lemma multiple_of_pos_step (k : Z) (step : Q) :
  0 < step -> 0 < inject_Z k * step -> (0 <= k)%Z.
Proof.
  intros Hs Hk.
  destruct (Z_le_gt_dec 0 k) as [H|H]; [exact H|].
  exfalso. assert (k <= 0)%Z as H' by lia.
  rewrite Zle_Qle in H'. change (inject_Z 0) with 0 in H'.
  nra.
Qed.

End LotQuantization.

(** C4. With positive balance, risk percent, tick value, stop distance,
    step, minimum and maximum, the minimum and the maximum being multiples
    of the step and ordered, [calculate_lot] returns a non-negative
    multiple of the step inside [volume_min, volume_max]: the raw lots are
    taken to a nearest multiple of the step; above the maximum the result
    is the maximum, below the minimum it is the minimum, and in between it
    is the quantized value itself. *)
Theorem lot_is_step_multiple_within_limits
    self mt5 symbol acct sym_info sl_points (kmin kmax : Z) :
  account_info mt5 = Some acct ->
  symbol_info mt5 symbol = Some sym_info ->
  0 < balance acct -> 0 < risk_per_trade self ->
  0 < trade_tick_value sym_info -> 0 < sl_points ->
  0 < volume_step sym_info ->
  0 < volume_min sym_info -> 0 < volume_max sym_info ->
  volume_min sym_info == inject_Z kmin * volume_step sym_info ->
  volume_max sym_info == inject_Z kmax * volume_step sym_info ->
  volume_min sym_info <= volume_max sym_info ->
  let raw := raw_lot_of self acct sym_info sl_points in
  let quantized := quantized_lot_of self acct sym_info sl_points in
  exists lots,
    calculate_lot self mt5 symbol sl_points = Ok lots /\
    (exists k : Z, (0 <= k)%Z /\ lots == inject_Z k * volume_step sym_info) /\
    volume_min sym_info <= lots <= volume_max sym_info /\
    (exists n : Z, quantized = inject_Z n * volume_step sym_info) /\
    (forall m : Z,
        Qabs (quantized - raw)
          <= Qabs (inject_Z m * volume_step sym_info - raw)) /\
    (volume_max sym_info < quantized -> lots == volume_max sym_info) /\
    (quantized < volume_min sym_info -> lots == volume_min sym_info) /\
    (volume_min sym_info <= quantized <= volume_max sym_info ->
       lots == quantized).
Proof.
  intros Ha Hi Hb Hr Ht Hs Hv Hmin Hmax Hkmin Hkmax Hle raw quantized.
  exists (clamp_lot quantized sym_info).
  split.
  { apply (calculate_lot_regular self mt5 symbol acct sym_info Ha Hi); lra. }
  assert (0 < raw) as Hraw.
  { unfold raw, raw_lot_of. apply div_pos.
    - apply Qmult_lt_0_compat; [exact Hb | apply div_pos; lra].
    - now apply Qmult_lt_0_compat. }
  assert (0 <= Py.round (raw / volume_step sym_info))%Z as Hk.
  { rewrite Zle_Qle. apply round_ge_int. change (inject_Z 0) with 0.
    apply Qlt_le_weak. now apply div_pos. }
  pose proof (multiple_of_pos_step kmin _ Hv ltac:(lra)) as Hk1.
  pose proof (multiple_of_pos_step kmax _ Hv ltac:(lra)) as Hk2.
  destruct (clamp_lot_cases quantized sym_info)
    as [[H1 ->]|[(H1 & H2 & ->)|(H1 & H2 & ->)]].
  - split; [exists kmax; split; [exact Hk2 | exact Hkmax]|].
    split; [split; lra|].
    split; [eexists; reflexivity|].
    split; [intro m; apply quantize_nearest; exact Hv|].
    repeat split; intros; lra.
  - split; [exists kmin; split; [exact Hk1 | exact Hkmin]|].
    split; [split; lra|].
    split; [eexists; reflexivity|].
    split; [intro m; apply quantize_nearest; exact Hv|].
    repeat split; intros; lra.
  - split; [eexists; split; [exact Hk | reflexivity]|].
    split; [split; lra|].
    split; [eexists; reflexivity|].
    split; [intro m; apply quantize_nearest; exact Hv|].
    repeat split; intros; lra.
Qed.

Lemma lot_is_step_multiple_within_limits_witness :
  exists lots,
    calculate_lot Scenario.self Scenario.mt5 "EURUSD" 15 = Ok lots /\
    (exists k : Z, (0 <= k)%Z /\ lots == inject_Z k * 0.01) /\
    0.01 <= lots <= 100.
Proof.
  destruct (lot_is_step_multiple_within_limits
              Scenario.self Scenario.mt5 "EURUSD"
              {| balance := 10000; equity := 10000 |} (Scenario.info 1.0)
              15 1 10000 eq_refl eq_refl)
    as (lots & Hl & Hk & Hr & _);
    try (cbn; lra); try reflexivity.
  exists lots. repeat split; try assumption; apply Hr.
Defined.

(** ** Ranking *)

Section SortFacts.

Lemma insert_desc_Forall (P : Opportunity -> Prop) x l :
  P x -> Forall P l -> Forall P (insert_desc x l).
Proof.
  intros Hx Hl. induction Hl as [|y ys Hy Hys IH]; cbn.
  - constructor; [exact Hx | constructor].
  - destruct (Py.ltb (opp_score x) (opp_score y)).
    + constructor; assumption.
    + constructor; [exact Hx|]. constructor; assumption.
Qed.

Lemma insert_desc_sorted x l :
  StronglySorted ranks_before l ->
  StronglySorted ranks_before (insert_desc x l).
Proof.
  induction 1 as [|y ys Hs IH Hall]; cbn.
  - constructor; constructor.
  - destruct (Py.ltb (opp_score x) (opp_score y)) eqn:E.
    + apply ltb_true in E. constructor; [exact IH|].
      apply insert_desc_Forall; [|exact Hall].
      unfold ranks_before. lra.
    + apply ltb_false in E. constructor.
      * constructor; assumption.
      * constructor; [exact E|].
        eapply Forall_impl; [|exact Hall].
        unfold ranks_before. intros z Hz. lra.
Qed.

Lemma sort_by_score_sorted l : StronglySorted ranks_before (sort_by_score l).
Proof.
  induction l as [|x xs IH]; cbn.
  - constructor.
  - now apply insert_desc_sorted.
Qed.

Lemma insert_desc_perm x l : Permutation (x :: l) (insert_desc x l).
Proof.
  induction l as [|y ys IH]; cbn.
  - reflexivity.
  - destruct (Py.ltb (opp_score x) (opp_score y)).
    + rewrite perm_swap. now constructor.
    + reflexivity.
Qed.

Lemma sort_by_score_perm l : Permutation l (sort_by_score l).
Proof.
  induction l as [|x xs IH]; cbn.
  - constructor.
  - rewrite <- insert_desc_perm. now constructor.
Qed.

(** Insertion passes only over strictly larger scores, so it never
    overtakes an opportunity of its own score. *)
Lemma insert_desc_with_score v x l :
  with_score v (insert_desc x l) = with_score v (x :: l).
Proof.
  unfold with_score. induction l as [|y ys IH]; [reflexivity|].
  cbn [insert_desc].
  destruct (Py.ltb (opp_score x) (opp_score y)) eqn:E; [|reflexivity].
  apply ltb_true in E.
  cbn [filter] in *. rewrite IH.
  destruct (Qeq_bool (opp_score x) v) eqn:Ex;
    destruct (Qeq_bool (opp_score y) v) eqn:Ey; try reflexivity.
  apply Qeq_bool_eq in Ex, Ey. lra.
Qed.

Lemma sort_by_score_with_score v l :
  with_score v (sort_by_score l) = with_score v l.
Proof.
  induction l as [|x xs IH]; [reflexivity|].
  cbn [sort_by_score]. rewrite insert_desc_with_score.
  unfold with_score in *. cbn [filter]. now rewrite IH.
Qed.

Lemma insert_desc_head x l :
  Forall (ranks_before x) l -> insert_desc x l = x :: l.
Proof.
  intros [|y ys Hy _]; [reflexivity|]. cbn.
  apply ltb_false in Hy. now rewrite Hy.
Qed.

Lemma insert_desc_filter (p : Opportunity -> bool) x l :
  StronglySorted ranks_before l ->
  filter p (insert_desc x l) =
    if p x then insert_desc x (filter p l) else filter p l.
Proof.
  induction 1 as [|y ys Hs IH Hall]; cbn [insert_desc filter].
  - destruct (p x); reflexivity.
  - destruct (Py.ltb (opp_score x) (opp_score y)) eqn:E.
    + cbn [filter]. rewrite IH.
      destruct (p y), (p x); try reflexivity.
      cbn [insert_desc]. now rewrite E.
    + cbn [filter]. destruct (p x); [|reflexivity].
      apply ltb_false in E.
      symmetry. apply insert_desc_head.
      apply Forall_forall. intros z Hz.
      assert (In z (y :: ys)) as Hin.
      { destruct (p y); [|right; now apply filter_In in Hz].
        destruct Hz as [<-|Hz]; [now left | right; now apply filter_In in Hz]. }
      destruct Hin as [<-|Hin]; [exact E|].
      rewrite Forall_forall in Hall. specialize (Hall z Hin).
      unfold ranks_before in *. lra.
Qed.

(** Dropping opportunities commutes with the sort. *)
Lemma sort_by_score_filter (p : Opportunity -> bool) l :
  filter p (sort_by_score l) = sort_by_score (filter p l).
Proof.
  induction l as [|x xs IH]; [reflexivity|].
  cbn [sort_by_score filter].
  rewrite insert_desc_filter by apply sort_by_score_sorted.
  rewrite IH. destruct (p x); reflexivity.
Qed.

End SortFacts.

(** C6. The published list is the discovered list reordered so that the
    scores never increase, and among opportunities of one score the
    discovery order is kept. *)
Theorem published_sorted_and_stable ta self mt5 :
  let discovered := scan_symbols ta self mt5 (active_symbols self) in
  let published := run_cycle ta self mt5 in
  StronglySorted (fun a b => opp_score b <= opp_score a) published /\
  Permutation discovered published /\
  (forall v : Q,
      filter (fun o => Qeq_bool (opp_score o) v) published =
      filter (fun o => Qeq_bool (opp_score o) v) discovered).
Proof.
  intros discovered published. unfold published, run_cycle. fold discovered.
  split; [apply sort_by_score_sorted|].
  split; [apply sort_by_score_perm|].
  intro v. apply (sort_by_score_with_score v).
Qed.

(** ** Fault isolation *)

Section Isolation.

Variable ta : list Bar -> result Indicators.
Variable self : ScannerWorker.

Lemma analyze_symbol_names mt5 s o :
  analyze_symbol ta self mt5 s = Some o -> opp_symbol o = s.
Proof.
  intro H.
  destruct (analyze_symbol_try_emits _ _ _ _ _ (analyze_symbol_try_of _ _ _ _ _ H))
    as (rates & ind & curr & tick & info & Hev).
  now destruct (analyze_symbol_fields _ _ _ _ _ _ _ _ _ _ Hev H) as (Hn & _).
Qed.

Lemma calculate_lot_agree symbol a b s sl_points :
  agree_except symbol a b -> s <> symbol ->
  calculate_lot self a s sl_points = calculate_lot self b s sl_points.
Proof.
  intros [Hacc Hsym] Hs. destruct (Hsym s Hs) as (_ & _ & Hi).
  unfold calculate_lot. now rewrite Hacc, Hi.
Qed.

(** An evaluation reads the provider only at its own symbol. *)
Lemma analyze_symbol_try_agree symbol a b s :
  agree_except symbol a b -> s <> symbol ->
  analyze_symbol_try ta self a s = analyze_symbol_try ta self b s.
Proof.
  intros Hag Hs. pose proof Hag as [Hacc Hsym].
  destruct (Hsym s Hs) as (Hr & Hk & Hi).
  unfold analyze_symbol_try. rewrite Hr, Hk, Hi.
  destruct (copy_rates_from_pos b s (timeframe self) 0 bars) as [rates|];
    [|reflexivity].
  destruct (List.length rates <? bars)%nat; [reflexivity|].
  destruct (ta rates) as [ind|]; [|reflexivity]. cbn [Py.bind].
  destruct (Py.iloc_last rates) as [curr|]; [|reflexivity]. cbn [Py.bind].
  destruct (symbol_info_tick b s) as [tick|]; [|reflexivity].
  destruct (symbol_info b s) as [info|]; [|reflexivity].
  cbn [Py.bind Py.attr_of].
  destruct (Py.truediv (ask tick - bid tick) (point info)); [|reflexivity].
  cbn [Py.bind].
  now rewrite (calculate_lot_agree symbol a b s _ Hag Hs).
Qed.

Lemma scan_symbols_isolated symbol a b symbols :
  agree_except symbol a b ->
  analyze_symbol ta self b symbol = None ->
  scan_symbols ta self b symbols
    = filter (not_of symbol) (scan_symbols ta self a symbols).
Proof.
  intros Hag Hnone. induction symbols as [|s rest IH]; [reflexivity|].
  cbn [scan_symbols].
  destruct (String.eqb_spec s symbol) as [->|Hne].
  - rewrite Hnone, IH.
    destruct (analyze_symbol ta self a symbol) as [d|] eqn:Ha; [|reflexivity].
    cbn [filter]. unfold not_of at 2.
    rewrite (analyze_symbol_names _ _ _ Ha), String.eqb_refl. reflexivity.
  - assert (analyze_symbol ta self a s = analyze_symbol ta self b s) as Hsame.
    { unfold analyze_symbol.
      now rewrite (analyze_symbol_try_agree symbol a b s Hag Hne). }
    rewrite Hsame.
    destruct (analyze_symbol ta self b s) as [d|] eqn:Hb; [|exact IH].
    rewrite IH. cbn [filter]. unfold not_of at 2.
    rewrite (analyze_symbol_names _ _ _ Hb).
    apply String.eqb_neq in Hne. rewrite Hne. reflexivity.
Qed.

Lemma scan_symbols_In mt5 symbols o :
  In o (scan_symbols ta self mt5 symbols) ->
  exists s, In s symbols /\ analyze_symbol ta self mt5 s = Some o.
Proof.
  induction symbols as [|s rest IH]; cbn [scan_symbols]; [intros []|].
  destruct (analyze_symbol ta self mt5 s) as [d|] eqn:Hs.
  - intros [<-|Hin].
    + exists s. split; [now left | exact Hs].
    + destruct (IH Hin) as (s' & Hin' & Hs').
      exists s'. split; [now right | exact Hs'].
  - intro Hin. destruct (IH Hin) as (s' & Hin' & Hs').
    exists s'. split; [now right | exact Hs'].
Qed.

End Isolation.

(** C7. When the analysis chain of one symbol raises, the failure is
    caught and nothing is returned for that symbol; the published list is
    the one of the same cycle without that failure, less that symbol; and
    everything published is the complete result of an analysis that did
    not raise, equal to what that symbol yields without the failure. *)
Theorem failure_is_isolated ta self mt5 mt5' symbol e :
  analyze_symbol_try ta self mt5' symbol = Raise e ->
  agree_except symbol mt5 mt5' ->
  analyze_symbol ta self mt5' symbol = None /\
  run_cycle ta self mt5' = filter (not_of symbol) (run_cycle ta self mt5) /\
  (forall o, In o (run_cycle ta self mt5') ->
     exists s, In s (active_symbols self) /\ s <> symbol /\
       analyze_symbol_try ta self mt5' s = Ok (Some o) /\
       analyze_symbol_try ta self mt5 s = Ok (Some o)).
Proof.
  intros Hraise Hag.
  assert (analyze_symbol ta self mt5' symbol = None) as Hnone.
  { unfold analyze_symbol. now rewrite Hraise. }
  split; [exact Hnone|]. split.
  - unfold run_cycle. rewrite sort_by_score_filter.
    now rewrite (scan_symbols_isolated ta self symbol mt5 mt5' _ Hag Hnone).
  - intros o Hin. unfold run_cycle in Hin.
    apply (Permutation_in _ (Permutation_sym (sort_by_score_perm _))) in Hin.
    destruct (scan_symbols_In _ _ _ _ _ Hin) as (s & Hs & Ho).
    assert (s <> symbol) as Hne by (intros ->; congruence).
    exists s. repeat split; try assumption.
    + now apply analyze_symbol_try_of.
    + rewrite (analyze_symbol_try_agree ta self symbol mt5 mt5' s Hag Hne).
      now apply analyze_symbol_try_of.
Qed.

Lemma failure_is_isolated_witness :
  analyze_symbol Scenario.ta Scenario.self Scenario.mt5 "ETHUSD" = None /\
  run_cycle Scenario.ta Scenario.self Scenario.mt5
    = filter (not_of "ETHUSD")
        (run_cycle Scenario.ta Scenario.self Scenario.mt5_healthy).
Proof.
  destruct (failure_is_isolated Scenario.ta Scenario.self
              Scenario.mt5_healthy Scenario.mt5 "ETHUSD" AttributeError eq_refl)
    as (H1 & H2 & _).
  - split; [reflexivity|]. intros s Hs.
    repeat split; try reflexivity.
    cbn [symbol_info Scenario.mt5_healthy].
    apply String.eqb_neq in Hs. now rewrite Hs.
  - split; assumption.
Defined.

(** * Further properties of the engine *)

(** ** The normalization curves *)

Ltac py_minmax :=
  repeat match goal with
    | |- context [Py.min ?a ?b] =>
        let E := fresh "E" in
        destruct (min_cases a b) as [[? E]|[? E]]; rewrite E in *; clear E
    | |- context [Py.max ?a ?b] =>
        let E := fresh "E" in
        destruct (max_cases a b) as [[? E]|[? E]]; rewrite E in *; clear E
    | _ : context [Py.min ?a ?b] |- _ =>
        let E := fresh "E" in
        destruct (min_cases a b) as [[? E]|[? E]]; rewrite E in *; clear E
    | _ : context [Py.max ?a ?b] |- _ =>
        let E := fresh "E" in
        destruct (max_cases a b) as [[? E]|[? E]]; rewrite E in *; clear E
    end.

Section Quotients.

Lemma div_25 (x : Q) : x / 25 == x * (1 # 25).
Proof. field. Qed.

Lemma div_0002 (x : Q) : x / 0.002 == x * 500.
Proof. field. Qed.

Lemma div_le_1 (a b : Q) : 0 < b -> a <= b -> a / b <= 1.
Proof. intros Hb H. apply Qle_shift_div_r; [exact Hb | lra]. Qed.

Lemma div_ge_1 (a b : Q) : 0 < b -> b <= a -> 1 <= a / b.
Proof. intros Hb H. apply Qle_shift_div_l; [exact Hb | lra]. Qed.

Lemma div_le_1_inv (a b : Q) : 0 < b -> a / b <= 1 -> a <= b.
Proof.
  intros Hb H.
  assert (a == a / b * b) as E by (field; lra).
  assert (a / b * b <= 1 * b) as H' by (apply Qmult_le_compat_r; lra).
  lra.
Qed.

Lemma div_ge_1_inv (a b : Q) : 0 < b -> 1 <= a / b -> b <= a.
Proof.
  intros Hb H.
  assert (a == a / b * b) as E by (field; lra).
  assert (1 * b <= a / b * b) as H' by (apply Qmult_le_compat_r; lra).
  lra.
Qed.

End Quotients.

(** Name the quotients by the constants of the curves, for [lra]. *)
Ltac const_div :=
  repeat match goal with
    | |- context [?a / 25] =>
        let q := fresh "q" in
        pose proof (div_25 a); set (q := a / 25) in *; clearbody q
    | H : context [?a / 25] |- _ =>
        let q := fresh "q" in
        pose proof (div_25 a); set (q := a / 25) in *; clearbody q
    | |- context [?a / 0.002] =>
        let q := fresh "q" in
        pose proof (div_0002 a); set (q := a / 0.002) in *; clearbody q
    end.

(** X1. Trend strength: the distance part is maxed out from two
    volatilities away from the trend filter, the ADX part maps the band
    20..45 linearly onto 0..1 and is flat outside, and the trend sub-score
    reaches 1 exactly when both parts are saturated. *)
Theorem trend_curve (close : Q) (curr : Indicators) :
  0 < atr curr ->
  (atr curr * 2 <= Qabs (close - ema curr) ->
     trend_str close (ema curr) (atr curr) == 1) /\
  (Qabs (close - ema curr) <= atr curr * 2 ->
     trend_str close (ema curr) (atr curr)
       == Qabs (close - ema curr) / (atr curr * 2)) /\
  (adx curr <= 20 -> adx_norm (adx curr) == 0) /\
  (45 <= adx curr -> adx_norm (adx curr) == 1) /\
  (20 <= adx curr <= 45 -> adx_norm (adx curr) == (adx curr - 20) / 25) /\
  (score_trend close curr == 1 <->
     atr curr * 2 <= Qabs (close - ema curr) /\ 45 <= adx curr).
Proof.
  intro Ha.
  assert (0 < atr curr * 2.0) as Hb by lra.
  set (d := Qabs (close - ema curr)).
  assert (atr curr * 2 <= d -> trend_str close (ema curr) (atr curr) == 1) as T1.
  { intro H. unfold trend_str. fold d.
    pose proof (div_ge_1 d (atr curr * 2.0) Hb ltac:(lra)).
    py_minmax; lra. }
  assert (trend_str close (ema curr) (atr curr) == 1 -> atr curr * 2 <= d) as T1'.
  { unfold trend_str. fold d. intro H.
    destruct (min_cases (d / (atr curr * 2.0)) 1.0) as [[Hlt E]|[Hle E]];
      rewrite E in H.
    - pose proof (div_ge_1_inv d (atr curr * 2.0) Hb ltac:(lra)). lra.
    - pose proof (div_ge_1_inv d (atr curr * 2.0) Hb ltac:(lra)). lra. }
  assert (45 <= adx curr -> adx_norm (adx curr) == 1) as A1.
  { intro H. unfold adx_norm. const_div. py_minmax; lra. }
  assert (adx_norm (adx curr) == 1 -> 45 <= adx curr) as A1'.
  { unfold adx_norm. const_div. py_minmax; intro; lra. }
  split; [exact T1|]. split.
  { intro H. unfold trend_str. fold d.
    pose proof (div_le_1 d (atr curr * 2.0) Hb ltac:(lra)).
    assert (d / (atr curr * 2.0) == d / (atr curr * 2)) as E by (field; lra).
    py_minmax; lra. }
  split.
  { intro H. unfold adx_norm. const_div. py_minmax; lra. }
  split; [exact A1|]. split.
  { intros [H1 H2]. unfold adx_norm. const_div. py_minmax; lra. }
  pose proof (trend_str_range close (ema curr) (atr curr) Ha) as Rt.
  pose proof (clamp_min_max_range ((adx curr - 20) / 25)) as Ra.
  fold (adx_norm (adx curr)) in Ra.
  split.
  - intro H. unfold score_trend in H.
    split; [apply T1' | apply A1']; lra.
  - intros [H1 H2]. unfold score_trend.
    rewrite (T1 H1), (A1 H2). reflexivity.
Qed.

Lemma trend_curve_witness :
  trend_str 1.1050 1.1000 0.0010 == 1 /\
  adx_norm 35 == (35 - 20) / 25.
Proof.
  pose proof (trend_curve 1.1050 (Scenario.ind_at 1.1050)) as H.
  destruct H as (H1 & _ & _ & _ & H5 & _); [cbn; lra|].
  split.
  - apply H1. vm_compute. intro E. discriminate E.
  - apply H5. cbn. lra.
Defined.

(** X2. Momentum: a bullish symbol scores (RSI - 50)/25 between RSI 50
    and 75, 0 below and 1 from 75 on (there is no fade above 75); the
    bearish curve is the mirror image around RSI 50; and no RSI value
    earns momentum on both sides. *)
Theorem momentum_curve (curr : Indicators) :
  (rsi curr <= 50 -> score_mom BULLISH curr == 0) /\
  (50 <= rsi curr <= 75 -> score_mom BULLISH curr == (rsi curr - 50) / 25) /\
  (75 <= rsi curr -> score_mom BULLISH curr == 1) /\
  (50 <= rsi curr -> score_mom BEARISH curr == 0) /\
  (25 <= rsi curr <= 50 -> score_mom BEARISH curr == (50 - rsi curr) / 25) /\
  (rsi curr <= 25 -> score_mom BEARISH curr == 1) /\
  (forall mirror, rsi mirror == 100 - rsi curr ->
     score_mom BEARISH mirror == score_mom BULLISH curr) /\
  (score_mom BULLISH curr == 0 \/ score_mom BEARISH curr == 0).
Proof.
  cbn [score_mom].
  repeat split; intros; const_div; py_minmax; lra.
Qed.

Lemma momentum_curve_witness :
  score_mom BULLISH (Scenario.ind_at 1.1050) == (70 - 50) / 25 /\
  score_mom BEARISH (Scenario.ind_at 1.1050) == 0.
Proof.
  destruct (momentum_curve (Scenario.ind_at 1.1050))
    as (_ & H2 & _ & H4 & _).
  split; [apply H2 | apply H4]; cbn; lra.
Defined.

(** X3. Volatility quality: with a positive close the sub-score is 0 up
    to a volatility of 0.05% of the close, 1 from 0.25% on, and linear in
    between. *)
Theorem volatility_curve (close : Q) (curr : Indicators) :
  0 < close ->
  (atr curr <= 0.0005 * close -> score_vol close curr == 0) /\
  (0.0025 * close <= atr curr -> score_vol close curr == 1) /\
  (0.0005 * close <= atr curr <= 0.0025 * close ->
     score_vol close curr == (atr curr / close - 0.0005) / 0.002).
Proof.
  intro Hc. unfold score_vol.
  set (p := atr curr / close).
  assert (atr curr == p * close) as E by (unfold p; field; lra).
  assert (forall k, atr curr <= k * close -> p <= k) as Hle.
  { intros k H. unfold p. apply Qle_shift_div_r; [exact Hc | lra]. }
  assert (forall k, k * close <= atr curr -> k <= p) as Hge.
  { intros k H. unfold p. apply Qle_shift_div_l; [exact Hc | lra]. }
  repeat split; intro H.
  - pose proof (Hle _ H). const_div. py_minmax; lra.
  - pose proof (Hge _ H). const_div. py_minmax; lra.
  - destruct H as [H1 H2]. pose proof (Hge _ H1). pose proof (Hle _ H2).
    const_div. py_minmax; lra.
Qed.

Lemma volatility_curve_witness :
  score_vol 1 (Scenario.ind_at 1) == (0.0010 / 1 - 0.0005) / 0.002.
Proof.
  destruct (volatility_curve 1 (Scenario.ind_at 1)) as (_ & _ & H);
    [lra|].
  apply H. cbn. lra.
Defined.

(** X4. Structure proximity: the sub-score is 1 at the channel boundary
    (the ask on the channel high for a bullish symbol, the bid on the
    channel low otherwise), falls linearly with the distance, and is 0
    from one and a half volatilities away; only the size of the distance
    counts, not its side. *)
Theorem structure_curve (b : Bias) (curr : Indicators) (tick : Tick) :
  0 < atr curr ->
  (atr curr * 1.5 <= dist_to_break b curr tick ->
     score_struct b curr tick == 0) /\
  (dist_to_break b curr tick <= atr curr * 1.5 ->
     score_struct b curr tick
       == 1 - dist_to_break b curr tick / (atr curr * 1.5)) /\
  (b = BULLISH -> ask tick == dcu curr -> score_struct b curr tick == 1) /\
  (b <> BULLISH -> bid tick == dcl curr -> score_struct b curr tick == 1).
Proof.
  intro Ha.
  assert (0 < atr curr * 1.5) as Hb by lra.
  pose proof (dist_to_break_nonneg b curr tick) as Hd.
  unfold score_struct.
  set (d := dist_to_break b curr tick) in *.
  assert (d == 0 -> 1.0 - Py.min (d / (atr curr * 1.5)) 1.0 == 1) as Hzero.
  { intro E.
    assert (d / (atr curr * 1.5) == 0) as E' by (rewrite E; field; lra).
    py_minmax; lra. }
  split.
  { intro H. pose proof (div_ge_1 d _ Hb H). py_minmax; lra. }
  split.
  { intro H. pose proof (div_le_1 d _ Hb H). py_minmax; lra. }
  split.
  - intros -> E. apply Hzero. unfold d. cbn [dist_to_break].
    rewrite Qabs_wd with (y := 0) by lra. reflexivity.
  - intros Hn E. apply Hzero. unfold d.
    destruct b; [congruence | |]; cbn [dist_to_break];
      rewrite Qabs_wd with (y := 0) by lra; reflexivity.
Qed.

Lemma structure_curve_witness :
  score_struct BULLISH (Scenario.ind_at 1.1050)
    {| bid := 1.1048; ask := 1.1052 |}
  == 1 - Qabs (1.1060 - 1.1052) / (0.0010 * 1.5).
Proof.
  destruct (structure_curve BULLISH (Scenario.ind_at 1.1050)
              {| bid := 1.1048; ask := 1.1052 |}) as (_ & H & _);
    [cbn; lra|].
  rewrite H.
  - vm_compute. reflexivity.
  - vm_compute. intro E. discriminate E.
Defined.

(** X5. Liquidity quality does not depend on the point size: it is
    1 - spread / (20% of the volatility), 0 from a spread of 20% of the
    volatility on, 1 for a zero spread, and, there being no upper clamp,
    above 1 when the quote is crossed (ask below bid). *)
Theorem liquidity_curve (tick : Tick) (curr : Indicators) (sym_info : SymbolInfo) :
  0 < atr curr -> ~ point sym_info == 0 ->
  let s := score_liq ((ask tick - bid tick) / point sym_info) curr sym_info in
  (atr curr * 0.2 <= ask tick - bid tick -> s == 0) /\
  (ask tick - bid tick <= atr curr * 0.2 ->
     s == 1 - (ask tick - bid tick) / (atr curr * 0.2)) /\
  (ask tick == bid tick -> s == 1) /\
  (ask tick < bid tick -> 1 < s).
Proof.
  intros Ha Hp s. subst s. unfold score_liq.
  assert (0 < atr curr * 0.2) as Hb by lra.
  set (x := (ask tick - bid tick) / point sym_info
            / (atr curr / point sym_info * 0.2)).
  set (y := (ask tick - bid tick) / (atr curr * 0.2)).
  assert (x == y) as Exy by (unfold x, y; field; split; lra).
  assert (ask tick - bid tick == y * (atr curr * 0.2)) as Ey
    by (unfold y; field; lra).
  split.
  { intro H. pose proof (div_ge_1 _ _ Hb H). fold y in H0.
    py_minmax; lra. }
  split.
  { intro H. pose proof (div_le_1 _ _ Hb H). fold y in H0.
    py_minmax; lra. }
  split.
  { intro H. assert (y == 0) as E0 by (unfold y; rewrite H; field; lra).
    py_minmax; lra. }
  intro H.
  assert (y < 0) as Hneg.
  { unfold y. apply Qlt_shift_div_r; [exact Hb | lra]. }
  py_minmax; lra.
Qed.

Lemma liquidity_curve_witness :
  score_liq ((1.1052 - 1.1048) / 0.0001) (Scenario.ind_at 1.1050)
    (Scenario.info 1.0) == 0.
Proof.
  destruct (liquidity_curve {| bid := 1.1048; ask := 1.1052 |}
              (Scenario.ind_at 1.1050) (Scenario.info 1.0)) as (H & _);
    [cbn; lra | cbn; lra |].
  apply H. cbn. lra.
Defined.

(** ** Rounding of the score *)

Section RoundOrder.

Lemma round_mono (x y : Q) : x <= y -> (Py.round x <= Py.round y)%Z.
Proof.
  intro Hxy.
  pose proof (Qfloor_resp_le x y Hxy) as Hf.
  destruct (Z.eq_dec (Qfloor x) (Qfloor y)) as [Heq|Hne].
  - unfold Py.round. rewrite <- Heq.
    destruct (Qcompare (x - inject_Z (Qfloor x)) (1 # 2)) eqn:Ex;
      destruct (Qcompare (y - inject_Z (Qfloor x)) (1 # 2)) eqn:Ey;
      first [apply Qeq_alt in Ex | apply Qlt_alt in Ex | apply Qgt_alt in Ex];
      first [apply Qeq_alt in Ey | apply Qlt_alt in Ey | apply Qgt_alt in Ey];
      try (exfalso; lra);
      destruct (Z.even (Qfloor x)); lia.
  - assert (Qfloor x + 1 <= Qfloor y)%Z as Hlt by lia.
    rewrite Zle_Qle in Hlt |- *. rewrite inject_Z_plus in Hlt.
    change (inject_Z 1) with 1 in Hlt.
    destruct (round_cases x) as [[Ex _]|[Ex _]];
      destruct (round_cases y) as [[Ey _]|[Ey _]]; lra.
Qed.

Lemma round1_mono (x y : Q) : x <= y -> Py.round1 x <= Py.round1 y.
Proof.
  intro H. unfold Py.round1.
  assert (x * 10 <= y * 10) as H10 by lra.
  pose proof (round_mono _ _ H10) as Hr. rewrite Zle_Qle in Hr.
  set (a := inject_Z (Py.round (x * 10))) in *.
  set (b := inject_Z (Py.round (y * 10))) in *.
  apply Qle_shift_div_l; [reflexivity|].
  assert (a / 10 * 10 == a) as E by field. lra.
Qed.

Lemma round1_error (x : Q) : Qabs (Py.round1 x - x) <= 0.05.
Proof.
  unfold Py.round1.
  pose proof (round_error (x * 10)) as H.
  apply Qabs_Qle_condition in H.
  set (a := inject_Z (Py.round (x * 10))) in *.
  assert (a / 10 * 10 == a) as E by field.
  apply Qabs_Qle_condition. split; lra.
Qed.

End RoundOrder.

(** X6. The published score has one decimal, differs from the weighted
    sum by at most 0.05, and rounding never inverts an order: a larger
    weighted sum never gets a smaller score. *)
Theorem score_rounding (t m v s l t' m' v' s' l' : Q) :
  (exists n : Z, final_score t m v s l * 10 == inject_Z n) /\
  Qabs (final_score t m v s l - weighted_score t m v s l) <= 0.05 /\
  (weighted_score t m v s l <= weighted_score t' m' v' s' l' ->
     final_score t m v s l <= final_score t' m' v' s' l').
Proof.
  unfold final_score. split; [|split].
  - exists (Py.round (weighted_score t m v s l * 10)).
    unfold Py.round1. field.
  - apply round1_error.
  - apply round1_mono.
Qed.

Lemma score_rounding_witness :
  final_score 0 0 0 0 0 <= final_score 1 1 1 1 1.
Proof.
  apply (proj2 (proj2 (score_rounding 0 0 0 0 0 1 1 1 1 1))).
  vm_compute. intro E. discriminate E.
Defined.

(** ** Geometry of the setup *)

(** X7. With a positive volatility and a positive reward:risk ratio the
    stop and the target lie on opposite sides of the entry: stop below
    and target above for BULLISH, the reverse otherwise (BEARISH and
    NEUTRAL).  The stop is always 1.5 volatilities from the entry and the
    target [rr_ratio] times that, so the stop distance in points is
    1.5 volatilities over the point size whatever the bias. *)
Theorem setup_geometry (self : ScannerWorker) (b : Bias) (tick : Tick)
    (curr : Indicators) (sym_info : SymbolInfo) :
  0 < atr curr -> 0 < rr_ratio self ->
  let entry := setup_entry b tick in
  let sl := setup_sl b tick curr in
  let tp := setup_tp self b tick curr in
  (b = BULLISH -> sl < entry /\ entry < tp) /\
  (b <> BULLISH -> tp < entry /\ entry < sl) /\
  Qabs (entry - sl) == 1.5 * atr curr /\
  Qabs (tp - entry) == rr_ratio self * (1.5 * atr curr) /\
  (0 < point sym_info ->
     sl_points_of b tick curr sym_info == 1.5 * atr curr / point sym_info).
Proof.
  intros Ha Hr entry sl tp.
  pose proof (Qmult_lt_0_compat _ _ Ha Hr) as Hprod.
  assert (Qabs (entry - sl) == 1.5 * atr curr) as Habs.
  { subst entry sl. unfold setup_sl, PropGuardConfig.ATR_MULTIPLIER.
    destruct b.
    - rewrite Qabs_pos; [ring | lra].
    - rewrite Qabs_neg; [ring | lra].
    - rewrite Qabs_neg; [ring | lra]. }
  split; [|split; [|split; [exact Habs|split]]].
  - intros ->. subst entry sl tp.
    unfold setup_tp, setup_sl, setup_entry, PropGuardConfig.ATR_MULTIPLIER.
    split; lra.
  - intro Hb. subst entry sl tp.
    unfold setup_tp, setup_sl, PropGuardConfig.ATR_MULTIPLIER.
    destruct b; [congruence | |]; split; lra.
  - subst entry sl tp.
    unfold setup_tp, setup_sl, PropGuardConfig.ATR_MULTIPLIER.
    destruct b.
    + rewrite Qabs_pos; [ring | lra].
    + rewrite Qabs_neg; [ring | lra].
    + rewrite Qabs_neg; [ring | lra].
  - intro Hp. unfold sl_points_of. fold entry sl.
    rewrite Habs. reflexivity.
Qed.

Lemma setup_geometry_witness :
  setup_sl BULLISH {| bid := 1.1048; ask := 1.1052 |} (Scenario.ind_at 1.1050)
    < 1.1052 /\
  1.1052 < setup_tp Scenario.self BULLISH {| bid := 1.1048; ask := 1.1052 |}
             (Scenario.ind_at 1.1050).
Proof.
  destruct (setup_geometry Scenario.self BULLISH
              {| bid := 1.1048; ask := 1.1052 |} (Scenario.ind_at 1.1050)
              (Scenario.info 1.0)) as (H & _); [cbn; lra | cbn; lra |].
  exact (H eq_refl).
Defined.

(** ** More on the lot size *)

Section LotBudget.

Lemma round_comp (x y : Q) : x == y -> Py.round x = Py.round y.
Proof.
  intro E. unfold Py.round.
  rewrite (Qfloor_comp x y E).
  assert (x - inject_Z (Qfloor y) == y - inject_Z (Qfloor y)) as E' by lra.
  now rewrite (Qcompare_comp _ _ E' (1 # 2) (1 # 2) (Qeq_refl _)).
Qed.

(** The quantized lot is within half a step of the raw lot. *)
Lemma quantize_error (raw step : Q) :
  0 < step ->
  Qabs (inject_Z (Py.round (raw / step)) * step - raw) <= step / 2.
Proof.
  intro Hs.
  pose proof (round_error (raw / step)) as H.
  apply Qabs_Qle_condition in H.
  set (n := inject_Z (Py.round (raw / step))) in *.
  set (x := raw / step) in *.
  assert (raw == x * step) as E by (unfold x; field; lra).
  assert ((n - x) * step <= (1 # 2) * step) as H1
    by (apply Qmult_le_compat_r; lra).
  assert (- (1 # 2) * step <= (n - x) * step) as H2
    by (apply Qmult_le_compat_r; lra).
  assert (step / 2 == (1 # 2) * step) as Eh by field.
  apply Qabs_Qle_condition. split; lra.
Qed.

Lemma raw_lot_money (self : ScannerWorker) (acct : AccountInfo)
    (sym_info : SymbolInfo) (sl_points : Q) :
  ~ trade_tick_value sym_info == 0 -> ~ sl_points == 0 ->
  raw_lot_of self acct sym_info sl_points
    * (sl_points * trade_tick_value sym_info)
  == risk_money_of self acct.
Proof.
  intros Ht Hs. unfold raw_lot_of, risk_money_of. field. now split.
Qed.

Lemma calculate_lot_regular_inv self mt5 symbol acct sym_info sl_points lots :
  account_info mt5 = Some acct ->
  symbol_info mt5 symbol = Some sym_info ->
  ~ trade_tick_value sym_info == 0 -> ~ sl_points == 0 ->
  ~ volume_step sym_info == 0 ->
  calculate_lot self mt5 symbol sl_points = Ok lots ->
  lots = clamp_lot (quantized_lot_of self acct sym_info sl_points) sym_info.
Proof.
  intros Ha Hi Ht Hs Hv Hl.
  rewrite (calculate_lot_regular self mt5 symbol acct sym_info Ha Hi
             sl_points Ht Hs Hv) in Hl.
  now injection Hl as <-.
Qed.

End LotBudget.

(** X8. When the quantized lot needs no clamping, the money put at risk
    over the stop distance differs from the risk budget (balance times
    risk percent) by at most half a volume step's worth. *)
Theorem unclamped_size_meets_budget
    self mt5 symbol acct sym_info sl_points lots :
  account_info mt5 = Some acct ->
  symbol_info mt5 symbol = Some sym_info ->
  0 < trade_tick_value sym_info -> 0 < sl_points ->
  0 < volume_step sym_info ->
  calculate_lot self mt5 symbol sl_points = Ok lots ->
  volume_min sym_info <= quantized_lot_of self acct sym_info sl_points
    <= volume_max sym_info ->
  Qabs (money_at_risk lots sl_points sym_info - risk_money_of self acct)
    <= volume_step sym_info / 2 * (sl_points * trade_tick_value sym_info).
Proof.
  intros Ha Hi Ht Hs Hv Hl [Hlo Hhi].
  pose proof (Qmult_lt_0_compat _ _ Hs Ht) as HK.
  apply (calculate_lot_regular_inv self mt5 symbol acct sym_info) in Hl;
    try assumption; try lra.
  assert (lots == quantized_lot_of self acct sym_info sl_points) as Eq.
  { rewrite Hl.
    destruct (clamp_lot_cases (quantized_lot_of self acct sym_info sl_points)
                sym_info) as [[H1 ->]|[(H1 & H2 & ->)|(H1 & H2 & ->)]]; lra. }
  unfold money_at_risk.
  rewrite <- (raw_lot_money self acct sym_info sl_points) by lra.
  pose proof (quantize_error (raw_lot_of self acct sym_info sl_points)
                (volume_step sym_info) Hv) as He.
  fold (quantized_lot_of self acct sym_info sl_points) in He.
  apply Qabs_Qle_condition in He.
  set (K := sl_points * trade_tick_value sym_info) in *.
  set (q := quantized_lot_of self acct sym_info sl_points) in *.
  set (r := raw_lot_of self acct sym_info sl_points) in *.
  assert ((q - r) * K <= volume_step sym_info / 2 * K) as H1
    by (apply Qmult_le_compat_r; lra).
  assert (- (volume_step sym_info / 2) * K <= (q - r) * K) as H2
    by (apply Qmult_le_compat_r; lra).
  assert (lots * K == q * K) as E by (rewrite Eq; reflexivity).
  apply Qabs_Qle_condition. split; lra.
Qed.

Lemma unclamped_size_meets_budget_witness :
  exists lots,
    calculate_lot Scenario.self Scenario.mt5 "EURUSD" 15 = Ok lots /\
    Qabs (money_at_risk lots 15 (Scenario.info 1.0) - 50)
      <= 0.01 / 2 * (15 * 1.0).
Proof.
  eexists. split; [reflexivity|].
  refine (unclamped_size_meets_budget Scenario.self Scenario.mt5 "EURUSD"
            {| balance := 10000; equity := 10000 |} (Scenario.info 1.0)
            15 _ eq_refl eq_refl _ _ _ eq_refl _);
    try (cbn; lra).
  split; vm_compute; intro E; discriminate E.
Defined.

Section ClampBudget.

Lemma scaled_int_lt (n k : Z) (step : Q) :
  0 < step -> inject_Z n * step < inject_Z k * step ->
  inject_Z n + 1 <= inject_Z k.
Proof.
  intros Hs H.
  destruct (Z_lt_le_dec n k) as [Hlt|Hge].
  - assert (n + 1 <= k)%Z as H' by lia.
    rewrite Zle_Qle, inject_Z_plus in H'. exact H'.
  - exfalso. rewrite Zle_Qle in Hge.
    assert (inject_Z k * step <= inject_Z n * step)
      by (apply Qmult_le_compat_r; lra).
    lra.
Qed.

End ClampBudget.

(** X9. Clamping leaves the budget: when the quantized lot is below the
    minimum, the minimum is returned and puts more money at risk than the
    budget; when it is above the maximum, the maximum is returned and
    puts less at risk than the budget (limits being multiples of the
    step). *)
Theorem clamped_size_leaves_budget
    self mt5 symbol acct sym_info sl_points lots (kmin kmax : Z) :
  account_info mt5 = Some acct ->
  symbol_info mt5 symbol = Some sym_info ->
  0 < trade_tick_value sym_info -> 0 < sl_points ->
  0 < volume_step sym_info ->
  volume_min sym_info == inject_Z kmin * volume_step sym_info ->
  volume_max sym_info == inject_Z kmax * volume_step sym_info ->
  volume_min sym_info <= volume_max sym_info ->
  calculate_lot self mt5 symbol sl_points = Ok lots ->
  let quantized := quantized_lot_of self acct sym_info sl_points in
  (quantized < volume_min sym_info ->
     lots = volume_min sym_info /\
     risk_money_of self acct < money_at_risk lots sl_points sym_info) /\
  (volume_max sym_info < quantized ->
     lots = volume_max sym_info /\
     money_at_risk lots sl_points sym_info < risk_money_of self acct).
Proof.
  intros Ha Hi Ht Hs Hv Hkmin Hkmax Hle Hl quantized.
  pose proof (Qmult_lt_0_compat _ _ Hs Ht) as HK.
  apply (calculate_lot_regular_inv self mt5 symbol acct sym_info) in Hl;
    try assumption; try lra.
  fold quantized in Hl.
  pose proof (raw_lot_money self acct sym_info sl_points
                ltac:(lra) ltac:(lra)) as Em.
  pose proof (round_error (raw_lot_of self acct sym_info sl_points
                           / volume_step sym_info)) as He.
  apply Qabs_Qle_condition in He.
  unfold quantized, quantized_lot_of in *.
  set (r := raw_lot_of self acct sym_info sl_points) in *.
  set (x := r / volume_step sym_info) in *.
  set (n := Py.round x) in *.
  set (K := sl_points * trade_tick_value sym_info) in *.
  assert (r == x * volume_step sym_info) as Er by (unfold x; field; lra).
  unfold money_at_risk. fold K.
  split; intro Hq.
  - assert (lots = volume_min sym_info) as ->.
    { rewrite Hl.
      destruct (clamp_lot_cases (inject_Z n * volume_step sym_info) sym_info)
        as [[H1 ->]|[(H1 & H2 & ->)|(H1 & H2 & ->)]]; [lra | reflexivity | lra]. }
    split; [reflexivity|].
    pose proof (scaled_int_lt n kmin _ Hv ltac:(lra)) as Hn.
    assert (x * volume_step sym_info
            < inject_Z kmin * volume_step sym_info) as Hx
      by (apply Qmult_lt_compat_r; lra).
    assert (r * K < volume_min sym_info * K) as Hr
      by (apply Qmult_lt_compat_r; lra).
    lra.
  - assert (lots = volume_max sym_info) as ->.
    { rewrite Hl.
      destruct (clamp_lot_cases (inject_Z n * volume_step sym_info) sym_info)
        as [[H1 ->]|[(H1 & H2 & ->)|(H1 & H2 & ->)]]; [reflexivity | lra | lra]. }
    split; [reflexivity|].
    pose proof (scaled_int_lt kmax n _ Hv ltac:(lra)) as Hn.
    assert (inject_Z kmax * volume_step sym_info
            < x * volume_step sym_info) as Hx
      by (apply Qmult_lt_compat_r; lra).
    assert (volume_max sym_info * K < r * K) as Hr
      by (apply Qmult_lt_compat_r; lra).
    lra.
Qed.

Lemma clamped_size_leaves_budget_witness :
  exists lots,
    calculate_lot Scenario.self Scenario.mt5 "EURUSD" 100000 = Ok lots /\
    lots = 0.01 /\
    risk_money_of Scenario.self {| balance := 10000; equity := 10000 |}
      < money_at_risk lots 100000 (Scenario.info 1.0).
Proof.
  eexists. split; [reflexivity|].
  refine (proj1 (clamped_size_leaves_budget Scenario.self Scenario.mt5 "EURUSD"
            {| balance := 10000; equity := 10000 |} (Scenario.info 1.0)
            100000 _ 1 10000 eq_refl eq_refl _ _ _ _ _ _ eq_refl) _);
    try (cbn; lra); try reflexivity.
Defined.

(** X10. Whatever the balance, the risk percent and the stop distance,
    a size that [calculate_lot] returns is either exactly 0 (unknown
    symbol, zero tick value or zero stop distance) or lies within the
    volume limits of the symbol, provided the limits are ordered. *)
Theorem size_is_zero_or_within_limits self mt5 symbol sl_points lots :
  calculate_lot self mt5 symbol sl_points = Ok lots ->
  (lots = 0.0 /\
   (symbol_info mt5 symbol = None \/
    exists sym_info, symbol_info mt5 symbol = Some sym_info /\
      (trade_tick_value sym_info == 0 \/ sl_points == 0))) \/
  (exists sym_info,
      symbol_info mt5 symbol = Some sym_info /\
      ~ trade_tick_value sym_info == 0 /\ ~ sl_points == 0 /\
      ~ volume_step sym_info == 0 /\
      (volume_min sym_info <= volume_max sym_info ->
       volume_min sym_info <= lots <= volume_max sym_info)).
Proof.
  unfold calculate_lot.
  destruct (account_info mt5) as [acct|]; [|discriminate].
  cbn [Py.attr_of Py.bind].
  destruct (symbol_info mt5 symbol) as [sym_info|].
  2:{ intro H. injection H as <-. left. split; [reflexivity | now left]. }
  destruct (Qeq_bool (trade_tick_value sym_info) 0) eqn:Et.
  { cbn [orb]. intro H. injection H as <-. left. split; [reflexivity|].
    right. exists sym_info. split; [reflexivity|].
    left. now apply Qeq_bool_eq. }
  destruct (Qeq_bool sl_points 0) eqn:Es.
  { cbn [orb]. intro H. injection H as <-. left. split; [reflexivity|].
    right. exists sym_info. split; [reflexivity|].
    right. now apply Qeq_bool_eq. }
  cbn [orb]. unfold quantize, Py.truediv.
  destruct (Qeq_bool (volume_step sym_info) 0) eqn:Ev; [discriminate|].
  cbn [Py.bind]. intro H. injection H as <-.
  right. exists sym_info.
  apply Qeq_bool_neq in Et, Es, Ev.
  repeat (split; [assumption || reflexivity|]).
  intro Hle.
  match goal with
  | |- _ <= clamp_lot ?q _ <= _ =>
      destruct (clamp_lot_cases q sym_info)
        as [[H1 ->]|[(H1 & H2 & ->)|(H1 & H2 & ->)]]; split; lra
  end.
Qed.

Lemma size_is_zero_or_within_limits_witness :
  calculate_lot Scenario.self Scenario.mt5 "XAUUSD" 15 = Ok 0.0 /\
  calculate_lot Scenario.self Scenario.mt5 "BTCUSD" 15 = Ok 0.0.
Proof.
  split.
  - destruct (size_is_zero_or_within_limits Scenario.self Scenario.mt5
                "XAUUSD" 15 _ eq_refl) as [[H _]|(i & Hi & Ht & _)].
    + reflexivity.
    + reflexivity.
  - destruct (size_is_zero_or_within_limits Scenario.self Scenario.mt5
                "BTCUSD" 15 _ eq_refl) as [[H _]|(i & Hi & _)].
    + reflexivity.
    + reflexivity.
Defined.

(** X11. An account with no money (balance zero or negative) is still
    offered the minimum lot: with a positive risk percent, tick value,
    stop distance and step and positive ordered limits, [calculate_lot]
    returns [volume_min]. *)
Theorem empty_account_gets_minimum_lot
    self mt5 symbol acct sym_info sl_points :
  account_info mt5 = Some acct ->
  symbol_info mt5 symbol = Some sym_info ->
  balance acct <= 0 -> 0 < risk_per_trade self ->
  0 < trade_tick_value sym_info -> 0 < sl_points ->
  0 < volume_step sym_info ->
  0 < volume_min sym_info -> volume_min sym_info <= volume_max sym_info ->
  calculate_lot self mt5 symbol sl_points = Ok (volume_min sym_info).
Proof.
  intros Ha Hi Hb Hr Ht Hs Hv Hmin Hle.
  rewrite (calculate_lot_regular self mt5 symbol acct sym_info Ha Hi)
    by lra.
  f_equal. unfold quantized_lot_of.
  set (r := raw_lot_of self acct sym_info sl_points).
  assert (r <= 0) as Hr0.
  { unfold r, raw_lot_of.
    apply Qle_shift_div_r; [now apply Qmult_lt_0_compat|].
    assert (0 < risk_per_trade self / 100.0) by (apply div_pos; lra).
    assert (0 <= - balance acct * (risk_per_trade self / 100.0))
      by (apply Qmult_le_0_compat; lra).
    lra. }
  assert (r / volume_step sym_info <= inject_Z 0) as Hx.
  { change (inject_Z 0) with 0.
    apply Qle_shift_div_r; [exact Hv | lra]. }
  pose proof (round_le_int _ _ Hx) as Hn. change (inject_Z 0) with 0 in Hn.
  assert (inject_Z (Py.round (r / volume_step sym_info))
          * volume_step sym_info <= 0 * volume_step sym_info) as Hq
    by (apply Qmult_le_compat_r; lra).
  match goal with
  | |- clamp_lot ?q _ = _ =>
      destruct (clamp_lot_cases q sym_info)
        as [[H1 E]|[(H1 & H2 & E)|(H1 & H2 & E)]]; rewrite E
  end; [exfalso; lra | reflexivity | exfalso; lra].
Qed.

Lemma empty_account_gets_minimum_lot_witness :
  calculate_lot Scenario.self
    (with_account Scenario.mt5 (Some {| balance := 0; equity := 0 |}))
    "EURUSD" 15 = Ok 0.01.
Proof.
  refine (empty_account_gets_minimum_lot Scenario.self
            (with_account Scenario.mt5 (Some {| balance := 0; equity := 0 |}))
            "EURUSD"
            {| balance := 0; equity := 0 |} (Scenario.info 1.0) 15
            eq_refl eq_refl _ _ _ _ _ _ _); cbn; lra.
Defined.

(** ** The cycle as a whole *)

Section CycleFacts.

Variable ta : list Bar -> result Indicators.
Variable self : ScannerWorker.

(** Without an account no evaluation gets past the sizing. *)
Lemma analyze_symbol_needs_account mt5 symbol :
  account_info mt5 = None -> analyze_symbol ta self mt5 symbol = None.
Proof.
  intro Ha. unfold analyze_symbol, analyze_symbol_try.
  destruct (copy_rates_from_pos mt5 symbol (timeframe self) 0 bars)
    as [rates|]; [|reflexivity].
  destruct (List.length rates <? bars)%nat; [reflexivity|].
  destruct (ta rates) as [ind|]; [|reflexivity]. cbn [Py.bind].
  destruct (Py.iloc_last rates) as [curr|]; [|reflexivity]. cbn [Py.bind].
  destruct (symbol_info_tick mt5 symbol) as [tick|]; [|reflexivity].
  destruct (symbol_info mt5 symbol) as [info|]; [|reflexivity].
  cbn [Py.bind Py.attr_of].
  destruct (Py.truediv (ask tick - bid tick) (point info)); [|reflexivity].
  cbn [Py.bind]. unfold calculate_lot. rewrite Ha. reflexivity.
Qed.

Lemma scan_symbols_names mt5 symbols :
  forall s, In s (map opp_symbol (scan_symbols ta self mt5 symbols)) ->
            In s symbols.
Proof.
  intros s Hin. apply in_map_iff in Hin as (o & <- & Ho).
  destruct (scan_symbols_In _ _ _ _ _ Ho) as (s' & Hs' & Ha).
  now rewrite (analyze_symbol_names _ _ _ _ _ Ha).
Qed.

Lemma scan_symbols_NoDup mt5 symbols :
  NoDup symbols ->
  NoDup (map opp_symbol (scan_symbols ta self mt5 symbols)).
Proof.
  induction 1 as [|s rest Hnin Hnd IH]; cbn [scan_symbols]; [constructor|].
  destruct (analyze_symbol ta self mt5 s) as [d|] eqn:Hs; [|exact IH].
  cbn [map]. constructor; [|exact IH].
  rewrite (analyze_symbol_names _ _ _ _ _ Hs).
  intro Hin. apply Hnin. now apply (scan_symbols_names mt5).
Qed.

Lemma scan_symbols_length mt5 symbols :
  (List.length (scan_symbols ta self mt5 symbols) <= List.length symbols)%nat.
Proof.
  induction symbols as [|s rest IH]; cbn [scan_symbols]; [reflexivity|].
  destruct (analyze_symbol ta self mt5 s); cbn [List.length]; lia.
Qed.

Lemma scan_symbols_complete mt5 symbols s o :
  In s symbols -> analyze_symbol ta self mt5 s = Some o ->
  In o (scan_symbols ta self mt5 symbols).
Proof.
  induction symbols as [|s' rest IH]; [intros []|].
  intros [->|Hin] Ho; cbn [scan_symbols].
  - rewrite Ho. now left.
  - destruct (analyze_symbol ta self mt5 s'); [right|]; now apply IH.
Qed.

End CycleFacts.

(** X12. A cycle during which the terminal gives no account information
    emits no statistics and publishes an empty list, whatever the
    symbols: every evaluation fails in the sizing and is dropped. *)
Theorem no_account_no_opportunities ta self mt5 :
  account_info mt5 = None ->
  cycle_stats self mt5 = None /\ run_cycle ta self mt5 = [].
Proof.
  intro Ha. split.
  - unfold cycle_stats. now rewrite Ha.
  - unfold run_cycle.
    assert (scan_symbols ta self mt5 (active_symbols self) = []) as ->.
    { induction (active_symbols self) as [|s rest IH]; [reflexivity|].
      cbn [scan_symbols].
      now rewrite (analyze_symbol_needs_account ta self mt5 s Ha). }
    reflexivity.
Qed.

Lemma no_account_no_opportunities_witness :
  run_cycle Scenario.ta Scenario.self (with_account Scenario.mt5 None) = [].
Proof.
  exact (proj2 (no_account_no_opportunities Scenario.ta Scenario.self
                  (with_account Scenario.mt5 None) eq_refl)).
Defined.

(** X13. The published list holds exactly the opportunities of the active
    symbols whose analysis returned one: each published entry is the
    result for its own symbol, which is active; each active symbol with a
    result is published; there are never more entries than symbols; and
    with no symbol selected twice no symbol is published twice. *)
Theorem published_matches_active_symbols ta self mt5 :
  let published := run_cycle ta self mt5 in
  (forall o, In o published ->
     In (opp_symbol o) (active_symbols self) /\
     analyze_symbol ta self mt5 (opp_symbol o) = Some o) /\
  (forall s o, In s (active_symbols self) ->
     analyze_symbol ta self mt5 s = Some o -> In o published) /\
  (List.length published <= List.length (active_symbols self))%nat /\
  (NoDup (active_symbols self) -> NoDup (map opp_symbol published)).
Proof.
  intro published. unfold published, run_cycle.
  set (found := scan_symbols ta self mt5 (active_symbols self)).
  pose proof (sort_by_score_perm found) as Hp.
  split; [|split; [|split]].
  - intros o Hin.
    apply (Permutation_in _ (Permutation_sym Hp)) in Hin.
    destruct (scan_symbols_In _ _ _ _ _ Hin) as (s & Hs & Ho).
    rewrite (analyze_symbol_names _ _ _ _ _ Ho). now split.
  - intros s o Hs Ho. apply (Permutation_in _ Hp).
    now apply (scan_symbols_complete ta self mt5 _ s).
  - rewrite <- (Permutation_length Hp). apply scan_symbols_length.
  - intro Hnd.
    apply (Permutation_NoDup (Permutation_map opp_symbol Hp)).
    now apply scan_symbols_NoDup.
Qed.

Lemma published_matches_active_symbols_witness :
  NoDup (map opp_symbol
           (run_cycle Scenario.ta Scenario.self Scenario.mt5)).
Proof.
  apply (proj2 (proj2 (proj2 (published_matches_active_symbols
                                Scenario.ta Scenario.self Scenario.mt5)))).
  repeat constructor; cbn; intuition discriminate.
Defined.

(** X14. Entering the loop: when the terminal cannot be initialised the
    worker does not start; without account information the start raises
    (outside any handler); otherwise the worker runs with its
    configuration unchanged, publishes the same opportunities as before,
    reports a daily P&L of zero against the account it started from and,
    later, the equity gained since the start. *)
Theorem run_entry_bookkeeping (self : ScannerWorker) (mt5 : MT5) :
  run_enter false self mt5 = Ok None /\
  (account_info mt5 = None -> run_enter true self mt5 = Raise AttributeError) /\
  (forall acct, account_info mt5 = Some acct ->
     exists w,
       run_enter true self mt5 = Ok (Some w) /\
       is_running w = true /\
       (forall ta mt5', run_cycle ta w mt5' = run_cycle ta self mt5') /\
       (exists st, cycle_stats w mt5 = Some st /\ stats_daily_pl st == 0) /\
       (forall mt5' acct', account_info mt5' = Some acct' ->
          exists st, cycle_stats w mt5' = Some st /\
                     stats_daily_pl st = equity acct' - equity acct)).
Proof.
  split; [reflexivity|]. split.
  - intro Ha. unfold run_enter. now rewrite Ha.
  - intros acct Ha. unfold run_enter. rewrite Ha. cbn.
    eexists. split; [reflexivity|]. split; [reflexivity|].
    split; [reflexivity|]. split.
    + unfold cycle_stats. rewrite Ha. eexists. split; [reflexivity|].
      cbn. ring.
    + intros mt5' acct' Ha'. unfold cycle_stats. rewrite Ha'.
      eexists. split; reflexivity.
Qed.

Lemma run_entry_bookkeeping_witness :
  exists w,
    run_enter true Scenario.self Scenario.mt5 = Ok (Some w) /\
    is_running w = true.
Proof.
  destruct (proj2 (proj2 (run_entry_bookkeeping Scenario.self Scenario.mt5))
              _ eq_refl) as (w & Hw & Hr & _).
  exists w. split; assumption.
Defined.

(** * Properties of the table *)

Section TableFacts.

Import ScannerTable.

Lemma arrow_of_same (score : Q) : arrow_of score score = NoArrow.
Proof.
  unfold arrow_of.
  assert (Py.ltb score score = false) as -> by (apply ltb_false; lra).
  reflexivity.
Qed.

(** A row reads the dictionary at its own symbol only. *)
Lemma render_row_local (d d' : previous_scores) (data : Opportunity) :
  d (opp_symbol data) = d' (opp_symbol data) ->
  fst (render_row d data) = fst (render_row d' data).
Proof.
  intro H. unfold render_row, dict_get. cbn [fst]. now rewrite H.
Qed.

Lemma update_table_cons prev data rest :
  update_table prev (data :: rest) =
    (fst (render_row prev data)
       :: fst (update_table (snd (render_row prev data)) rest),
     snd (update_table (snd (render_row prev data)) rest)).
Proof.
  cbn [update_table].
  destruct (render_row prev data) as [row prev1]. cbn [fst snd].
  destruct (update_table prev1 rest) as [rows prev2]. reflexivity.
Qed.

Lemma update_table_keeps prev opps s :
  ~ In s (map opp_symbol opps) -> snd (update_table prev opps) s = prev s.
Proof.
  revert prev. induction opps as [|o rest IH]; intros prev Hnin;
    [reflexivity|].
  rewrite update_table_cons. cbn [snd].
  rewrite IH by (intro H; apply Hnin; now right).
  unfold render_row, dict_set. cbn [snd].
  destruct (String.eqb_spec s (opp_symbol o)) as [->|Hne]; [|reflexivity].
  exfalso. apply Hnin. now left.
Qed.

Lemma update_table_stores prev opps o :
  NoDup (map opp_symbol opps) -> In o opps ->
  snd (update_table prev opps) (opp_symbol o) = Some (opp_score o).
Proof.
  revert prev. induction opps as [|x rest IH]; intros prev Hnd Hin;
    [destruct Hin|].
  cbn [map] in Hnd. inversion Hnd as [|? ? Hnin Hnd']; subst.
  rewrite update_table_cons. cbn [snd].
  destruct Hin as [->|Hin].
  - rewrite update_table_keeps by exact Hnin.
    unfold render_row, dict_set. cbn [snd]. now rewrite String.eqb_refl.
  - now apply IH.
Qed.

Lemma update_table_rows prev opps :
  NoDup (map opp_symbol opps) ->
  fst (update_table prev opps) = map (fun o => fst (render_row prev o)) opps.
Proof.
  revert prev. induction opps as [|x rest IH]; intros prev Hnd;
    [reflexivity|].
  cbn [map] in Hnd. inversion Hnd as [|? ? Hnin Hnd']; subst.
  rewrite update_table_cons. cbn [fst map]. f_equal.
  rewrite IH by exact Hnd'.
  apply map_ext_in. intros o Ho. apply render_row_local.
  unfold render_row, dict_set. cbn [snd].
  destruct (String.eqb_spec (opp_symbol o) (opp_symbol x)) as [E|_];
    [|reflexivity].
  exfalso. apply Hnin. rewrite <- E. now apply in_map.
Qed.

End TableFacts.

(** X15. With no symbol listed twice, every row of the table compares
    its score with the one stored before this update (no arrow for a
    symbol not seen before, up for a higher score, down for a lower);
    afterwards the dictionary holds the new score of every listed symbol
    and still holds the old score of every symbol not listed. *)
Theorem update_table_arrows_and_memory
    (prev : ScannerTable.previous_scores) (opps : list Opportunity) :
  NoDup (map opp_symbol opps) ->
  let rows := fst (ScannerTable.update_table prev opps) in
  let prev' := snd (ScannerTable.update_table prev opps) in
  map ScannerTable.row_symbol rows = map opp_symbol opps /\
  (forall i o r, nth_error opps i = Some o -> nth_error rows i = Some r ->
     match prev (opp_symbol o) with
     | None => ScannerTable.row_arrow r = ScannerTable.NoArrow
     | Some p =>
         (p < opp_score o <-> ScannerTable.row_arrow r = ScannerTable.ArrowUp) /\
         (opp_score o < p <-> ScannerTable.row_arrow r = ScannerTable.ArrowDown)
     end) /\
  (forall o, In o opps -> prev' (opp_symbol o) = Some (opp_score o)) /\
  (forall s, ~ In s (map opp_symbol opps) -> prev' s = prev s).
Proof.
  intros Hnd rows prev'. subst rows prev'.
  rewrite (update_table_rows prev opps Hnd).
  split; [|split; [|split]].
  - rewrite map_map. reflexivity.
  - intros i o r Ho Hr.
    rewrite nth_error_map, Ho in Hr. cbn in Hr. injection Hr as <-.
    cbn [ScannerTable.row_arrow]. unfold ScannerTable.dict_get.
    destruct (prev (opp_symbol o)) as [p|].
    + unfold ScannerTable.arrow_of.
      destruct (Py.ltb p (opp_score o)) eqn:E1.
      * apply ltb_true in E1. split; split; intro H;
          try reflexivity; try discriminate; lra.
      * destruct (Py.ltb (opp_score o) p) eqn:E2.
        -- apply ltb_true in E2. apply ltb_false in E1.
           split; split; intro H; try reflexivity; try discriminate; lra.
        -- apply ltb_false in E1, E2.
           split; split; intro H; try discriminate; lra.
    + apply arrow_of_same.
  - intros o Ho. now apply update_table_stores.
  - intros s Hs. now apply update_table_keeps.
Qed.

Lemma update_table_arrows_and_memory_witness :
  snd (ScannerTable.update_table ScannerTable.no_scores
         [Scenario.opp_EURUSD; Scenario.opp_GBPUSD]) "GBPUSD"%string
  = Some 10.3.
Proof.
  refine (proj1 (proj2 (proj2 (update_table_arrows_and_memory
            ScannerTable.no_scores
            [Scenario.opp_EURUSD; Scenario.opp_GBPUSD] _)))
            Scenario.opp_GBPUSD _).
  - repeat constructor; cbn; intuition discriminate.
  - right. now left.
Defined.

(** X16. Showing the same list again changes nothing: with no symbol
    listed twice, a second update with the same opportunities shows no
    arrow in any row and leaves every stored score as it is. *)
Theorem update_table_twice_shows_no_arrows
    (prev : ScannerTable.previous_scores) (opps : list Opportunity) :
  NoDup (map opp_symbol opps) ->
  let prev1 := snd (ScannerTable.update_table prev opps) in
  Forall (fun r => ScannerTable.row_arrow r = ScannerTable.NoArrow)
    (fst (ScannerTable.update_table prev1 opps)) /\
  (forall s, snd (ScannerTable.update_table prev1 opps) s = prev1 s).
Proof.
  intros Hnd prev1. split.
  - rewrite (update_table_rows prev1 opps Hnd).
    apply Forall_forall. intros r Hr.
    apply in_map_iff in Hr as (o & <- & Ho).
    unfold ScannerTable.render_row, ScannerTable.dict_get.
    cbn [fst ScannerTable.row_arrow].
    unfold prev1. rewrite (update_table_stores prev opps o Hnd Ho).
    apply arrow_of_same.
  - intro s.
    destruct (in_dec string_dec s (map opp_symbol opps)) as [Hin|Hnin].
    + apply in_map_iff in Hin as (o & <- & Ho).
      rewrite (update_table_stores prev1 opps o Hnd Ho).
      unfold prev1. now rewrite (update_table_stores prev opps o Hnd Ho).
    + now apply update_table_keeps.
Qed.

Lemma update_table_twice_shows_no_arrows_witness :
  Forall (fun r => ScannerTable.row_arrow r = ScannerTable.NoArrow)
    (fst (ScannerTable.update_table
            (snd (ScannerTable.update_table ScannerTable.no_scores
                    [Scenario.opp_EURUSD; Scenario.opp_GBPUSD]))
            [Scenario.opp_EURUSD; Scenario.opp_GBPUSD])).
Proof.
  refine (proj1 (update_table_twice_shows_no_arrows ScannerTable.no_scores
                   [Scenario.opp_EURUSD; Scenario.opp_GBPUSD] _)).
  repeat constructor; cbn; intuition discriminate.
Defined.

(** X17. In every row the signal, the colour of the score cell and the
    highlight of the signal cell follow the same two thresholds: TRADE
    NOW, bright green and highlighted exactly from 85 on; WATCH and olive
    exactly from 70 up to, not including, 85; WAIT and dark red exactly
    below 70. *)
Theorem row_signal_matches_color
    (prev : ScannerTable.previous_scores) (data : Opportunity) :
  let r := fst (ScannerTable.render_row prev data) in
  (85 <= opp_score data <-> ScannerTable.row_signal r = ScannerTable.TRADE_NOW) /\
  (70 <= opp_score data < 85 <->
     ScannerTable.row_signal r = ScannerTable.WATCH) /\
  (opp_score data < 70 <-> ScannerTable.row_signal r = ScannerTable.WAIT) /\
  (ScannerTable.row_signal r = ScannerTable.TRADE_NOW <->
     ScannerTable.row_color r = ScannerTable.BrightGreen) /\
  (ScannerTable.row_signal r = ScannerTable.WATCH <->
     ScannerTable.row_color r = ScannerTable.Olive) /\
  (ScannerTable.row_signal r = ScannerTable.WAIT <->
     ScannerTable.row_color r = ScannerTable.DarkRed) /\
  (ScannerTable.row_signal_highlighted r = true <->
     ScannerTable.row_signal r = ScannerTable.TRADE_NOW).
Proof.
  intro r. subst r. unfold ScannerTable.render_row.
  cbn [fst ScannerTable.row_signal ScannerTable.row_color
       ScannerTable.row_signal_highlighted].
  unfold ScannerTable.signal_text, ScannerTable.score_color.
  destruct (Qle_bool 85 (opp_score data)) eqn:E1.
  - apply Qle_bool_iff in E1.
    repeat split; intros;
      repeat match goal with H : _ /\ _ |- _ => destruct H end;
      try reflexivity; try discriminate; lra.
  - assert (opp_score data < 85) as H85.
    { apply Qnot_le_lt. intro H. apply Qle_bool_iff in H. congruence. }
    destruct (Qle_bool 70 (opp_score data)) eqn:E2.
    + apply Qle_bool_iff in E2.
      repeat split; intros;
      repeat match goal with H : _ /\ _ |- _ => destruct H end;
      try reflexivity; try discriminate; lra.
    + assert (opp_score data < 70) as H70.
      { apply Qnot_le_lt. intro H. apply Qle_bool_iff in H. congruence. }
      repeat split; intros;
      repeat match goal with H : _ /\ _ |- _ => destruct H end;
      try reflexivity; try discriminate; lra.
Qed.

(** X18. A NEUTRAL opportunity can never be more than a WAIT: its trend
    distance and its momentum are 0, so with positive volatility and
    point size and an uncrossed quote its score is at most 62, below the
    WATCH threshold of 70. *)
Theorem neutral_is_at_most_wait
    ta self mt5 symbol rates ind curr tick sym_info opp :
  Evaluated ta self mt5 symbol rates ind curr tick sym_info ->
  analyze_symbol ta self mt5 symbol = Some opp ->
  opp_bias opp = NEUTRAL ->
  0 < atr ind -> 0 < point sym_info -> bid tick <= ask tick ->
  opp_score opp <= 62 /\
  ScannerTable.signal_text (opp_score opp) = ScannerTable.WAIT /\
  ScannerTable.score_color (opp_score opp) = ScannerTable.DarkRed.
Proof.
  intros Hev Hs Hn Ha Hp Hq.
  destruct (analyze_symbol_fields _ _ _ _ _ _ _ _ _ _ Hev Hs)
    as (_ & Hsc & Hb & _).
  rewrite Hn in Hb. symmetry in Hb.
  assert (bar_close curr == ema ind) as Heq.
  { destruct (determine_bias_cases (bar_close curr) (ema ind))
      as [[H E]|[[H E]|[H E]]]; [congruence | congruence | exact H]. }
  assert (opp_score opp <= 62) as Hle.
  { rewrite Hsc. unfold score_of, final_score. rewrite Hb.
    apply (round1_range _ 0 62 0 620); [reflexivity | reflexivity |].
    pose proof (score_vol_range (bar_close curr) ind) as Hv.
    pose proof (score_struct_range NEUTRAL ind tick Ha) as Hst.
    pose proof (score_liq_range tick ind sym_info Ha Hp Hq) as Hl.
    pose proof (clamp_min_max_range ((adx ind - 20) / 25)) as Hadx.
    assert (trend_str (bar_close curr) (ema ind) (atr ind) == 0) as Ht.
    { unfold trend_str.
      assert (Qabs (bar_close curr - ema ind) / (atr ind * 2.0) == 0) as E0.
      { assert (Qabs (bar_close curr - ema ind) == 0) as Ez
          by (rewrite Qabs_wd with (y := 0) by lra; reflexivity).
        rewrite Ez. field. lra. }
      py_minmax; lra. }
    unfold weighted_score, score_trend. fold (adx_norm (adx ind)) in Hadx.
    cbn [score_mom]. split; lra. }
  split; [exact Hle|].
  unfold ScannerTable.signal_text, ScannerTable.score_color.
  assert (Qle_bool 85 (opp_score opp) = false) as ->.
  { destruct (Qle_bool 85 (opp_score opp)) eqn:E; [|reflexivity].
    apply Qle_bool_iff in E. lra. }
  assert (Qle_bool 70 (opp_score opp) = false) as ->.
  { destruct (Qle_bool 70 (opp_score opp)) eqn:E; [|reflexivity].
    apply Qle_bool_iff in E. lra. }
  split; reflexivity.
Qed.

Lemma neutral_is_at_most_wait_witness :
  exists opp,
    analyze_symbol Scenario.ta Scenario.self Scenario.mt5 "GBPUSD" = Some opp /\
    opp_score opp <= 62 /\
    ScannerTable.signal_text (opp_score opp) = ScannerTable.WAIT.
Proof.
  eexists. split; [vm_compute; reflexivity|].
  destruct (neutral_is_at_most_wait _ _ _ _ _ _ _ _ _ _
              ScenarioFacts.evaluated_GBPUSD eq_refl eq_refl)
    as (H1 & H2 & _); try (cbn; lra).
  split; assumption.
Defined.

(** ** The check-box grid *)

Section GridFacts.

Import ScannerTable.

Lemma add_checks_nth (syms : list string) :
  forall (r c i : nat) (s : string),
    (c < 2)%nat -> nth_error syms i = Some s ->
    nth_error (add_checks syms r c) i
      = Some (s, ((r + (c + i) / 2)%nat, ((c + i) mod 2)%nat)).
Proof.
  induction syms as [|x rest IH]; intros r c i s Hc Hi.
  - destruct i; discriminate.
  - destruct i as [|j]; cbn [add_checks nth_error] in *.
    + injection Hi as ->. rewrite Nat.add_0_r.
      rewrite Nat.div_small, Nat.mod_small by lia.
      now rewrite Nat.add_0_r.
    + destruct c as [|[|c']]; [| |lia].
      * change (1 <? 0 + 1)%nat with false. cbv iota.
        rewrite (IH r (0 + 1)%nat j s) by (lia || assumption).
        replace (0 + S j)%nat with (0 + 1 + j)%nat by lia. reflexivity.
      * change (1 <? 1 + 1)%nat with true. cbv iota.
        rewrite (IH (r + 1)%nat 0%nat j s) by (lia || assumption).
        replace (1 + S j)%nat with (0 + j + 1 * 2)%nat by lia.
        rewrite Nat.div_add, Nat.Div0.mod_add by lia.
        do 3 f_equal. lia.
Qed.

Lemma add_checks_symbols (syms : list string) :
  forall r c, map fst (add_checks syms r c) = syms.
Proof.
  induction syms as [|x rest IH]; intros r c; [reflexivity|].
  cbn [add_checks map fst].
  destruct (1 <? c + 1)%nat; now rewrite IH.
Qed.

End GridFacts.

(** X19. The check boxes of an asset group fill a grid of two columns row
    by row, in the order of the symbols: the i-th symbol (from 0) sits in
    row i/2, column i mod 2, so no two symbols share a cell. *)
Theorem group_grid_two_columns (syms : list string) :
  map fst (ScannerTable.group_grid syms) = syms /\
  (forall i s, nth_error syms i = Some s ->
     nth_error (ScannerTable.group_grid syms) i
       = Some (s, ((i / 2)%nat, (i mod 2)%nat))) /\
  NoDup (map snd (ScannerTable.group_grid syms)).
Proof.
  unfold ScannerTable.group_grid.
  assert (forall i s, nth_error syms i = Some s ->
            nth_error (ScannerTable.add_checks syms 0 0) i
              = Some (s, ((i / 2)%nat, (i mod 2)%nat))) as Hnth.
  { intros i s Hi.
    now rewrite (add_checks_nth syms 0 0 i s ltac:(lia) Hi). }
  split; [apply add_checks_symbols|]. split; [exact Hnth|].
  apply (proj2 (NoDup_nth_error _)).
  intros i j Hi Heq.
  rewrite length_map in Hi.
  assert (List.length (ScannerTable.add_checks syms 0 0) = List.length syms)
    as Hlen.
  { rewrite <- (add_checks_symbols syms 0 0) at 2. now rewrite length_map. }
  rewrite Hlen in Hi.
  destruct (nth_error syms i) as [si|] eqn:Esi;
    [|apply nth_error_None in Esi; lia].
  rewrite !nth_error_map in Heq.
  rewrite (Hnth i si Esi) in Heq. cbn [option_map snd] in Heq.
  destruct (nth_error syms j) as [sj|] eqn:Esj.
  - rewrite (Hnth j sj Esj) in Heq. cbn [option_map snd] in Heq.
    injection Heq as Hd Hm.
    pose proof (Nat.div_mod_eq i 2) as Ei.
    pose proof (Nat.div_mod_eq j 2) as Ej.
    assert (i / 2 = j / 2)%nat as Hd' by exact Hd.
    assert (i mod 2 = j mod 2)%nat as Hm' by exact Hm.
    rewrite Hd', Hm' in Ei. congruence.
  - apply nth_error_None in Esj. rewrite <- Hlen in Esj.
    apply nth_error_None in Esj. rewrite Esj in Heq. discriminate.
Qed.

Lemma group_grid_two_columns_witness :
  nth_error (ScannerTable.group_grid ["US30"; "NAS100"; "GER40"]%string) 2
  = Some ("GER40"%string, (1%nat, 0%nat)).
Proof.
  exact (proj1 (proj2 (group_grid_two_columns
                         ["US30"; "NAS100"; "GER40"]%string))
           2%nat "GER40"%string eq_refl).
Defined.

(** ** Order of the selection *)

Section SelectionOrder.

Lemma scan_symbols_perm ta self mt5 (l l' : list string) :
  Permutation l l' ->
  Permutation (scan_symbols ta self mt5 l) (scan_symbols ta self mt5 l').
Proof.
  induction 1 as [|s l l' Hp IH|s t l|l l' l'' H1 IH1 H2 IH2];
    cbn [scan_symbols].
  - constructor.
  - destruct (analyze_symbol ta self mt5 s); [now constructor | exact IH].
  - destruct (analyze_symbol ta self mt5 s), (analyze_symbol ta self mt5 t);
      try reflexivity. apply perm_swap.
  - now transitivity (scan_symbols ta self mt5 l').
Qed.

(** Two rankings of the same opportunities coincide when equal scores
    only occur on equal opportunities. *)
Lemma sorted_perm_unique (l1 l2 : list Opportunity) :
  StronglySorted ranks_before l1 -> StronglySorted ranks_before l2 ->
  Permutation l1 l2 ->
  (forall a b, In a l1 -> In b l1 -> opp_score a == opp_score b -> a = b) ->
  l1 = l2.
Proof.
  intros H1. revert l2.
  induction H1 as [|x xs Hs IH Hall]; intros l2 H2 Hp Hinj.
  - now apply Permutation_nil in Hp.
  - destruct l2 as [|y ys];
      [apply Permutation_sym, Permutation_nil in Hp; discriminate|].
    inversion H2 as [|? ? Hs2 Hall2]; subst.
    assert (In y (x :: xs)) as Hy
      by (apply (Permutation_in _ (Permutation_sym Hp)); now left).
    assert (In x (y :: ys)) as Hx
      by (apply (Permutation_in _ Hp); now left).
    assert (y = x) as ->.
    { apply Hinj; [exact Hy | now left |].
      rewrite Forall_forall in Hall, Hall2.
      assert (opp_score y <= opp_score x) as Hle1.
      { destruct Hy as [<-|Hy]; [lra | exact (Hall y Hy)]. }
      assert (opp_score x <= opp_score y) as Hle2.
      { destruct Hx as [<-|Hx]; [lra | exact (Hall2 x Hx)]. }
      lra. }
    f_equal. apply IH.
    + exact Hs2.
    + now apply Permutation_cons_inv in Hp.
    + intros a b Ha Hb. apply Hinj; now right.
Qed.

End SelectionOrder.

(** X20. The order in which the symbols were selected shows at most in
    the order of ties: two workers that differ only in the order of their
    symbols publish the same opportunities, and the very same list when
    no two different opportunities have the same score. *)
Theorem selection_order_only_breaks_ties
    ta self mt5 (symbols symbols' : list string) (risk rr : Q) :
  Permutation symbols symbols' ->
  let published := run_cycle ta (set_config self symbols risk rr) mt5 in
  let published' := run_cycle ta (set_config self symbols' risk rr) mt5 in
  Permutation published published' /\
  ((forall a b, In a published -> In b published ->
      opp_score a == opp_score b -> a = b) ->
   published = published').
Proof.
  intros Hp published published'.
  assert (Permutation published published') as Hpp.
  { unfold published, published', run_cycle. cbn [active_symbols set_config].
    rewrite <- !sort_by_score_perm.
    apply (scan_symbols_perm ta (set_config self symbols risk rr) mt5 _ _ Hp). }
  split; [exact Hpp|].
  intro Hinj.
  apply sorted_perm_unique; try assumption; apply sort_by_score_sorted.
Qed.

Lemma selection_order_only_breaks_ties_witness :
  run_cycle Scenario.ta
    (set_config Scenario.self ["GBPUSD"; "XAUUSD"; "EURUSD"]%string 0.5 2.0)
    Scenario.mt5
  = run_cycle Scenario.ta
      (set_config Scenario.self ["EURUSD"; "GBPUSD"; "XAUUSD"]%string 0.5 2.0)
      Scenario.mt5.
Proof.
  refine (proj2 (selection_order_only_breaks_ties Scenario.ta Scenario.self
                   Scenario.mt5 ["GBPUSD"; "XAUUSD"; "EURUSD"]%string
                   ["EURUSD"; "GBPUSD"; "XAUUSD"]%string 0.5 2.0 _) _).
  - apply Permutation_sym.
    change (Permutation (["EURUSD"] ++ ["GBPUSD"; "XAUUSD"])
              (["GBPUSD"; "XAUUSD"] ++ ["EURUSD"]))%string.
    apply Permutation_app_comm.
  - intros a b Ha Hb Heq.
    vm_compute in Ha, Hb.
    destruct Ha as [<-|[<-|[<-|[]]]]; destruct Hb as [<-|[<-|[<-|[]]]];
      try reflexivity; vm_compute in Heq; discriminate Heq.
Defined.
